(** * Verification of the coordinate validation and reconciliation pipeline

    Shallow embedding of [src/app.py]: the strict Indonesia region validator
    ([validate_indonesia_strict], [is_in_forbidden_area]), the coordinate
    cleaner ([clean_and_validate_coordinates_strict],
    [detect_and_fix_coordinate_issues]) and the matched-name filter of
    [load_and_process_data_strict].

    Coordinates are Python floats, that is IEEE 754 binary64 numbers; they
    are modelled by the primitive floats of Rocq, whose comparisons and
    decimal literals round and compare the way Python's do. *)

From Stdlib Require Import Floats ZArith Lia Ascii String.
From stdpp Require Import gmap strings list.

Set Warnings "-inexact-float".
Set Default Proof Using "Type".

(** ** Configuration *)

(** One entry of [Config.INDONESIA_STRICT_BOUNDS] or
    [Config.FORBIDDEN_AREAS]: a dict with the four keys below. *)
Record GeoBox := mkBox {
  min_lat : float;
  max_lat : float;
  min_lon : float;
  max_lon : float
}.

Module Config.

(** The dict of named inclusion boxes, in insertion order. *)
Definition INDONESIA_STRICT_BOUNDS : list (string * GeoBox) :=
  [ ("sumatera",   mkBox (-6.0) 5.5 95.0 105.8);
    ("jawa",       mkBox (-8.9) (-5.5) 105.5 114.5);
    ("kalimantan", mkBox (-4.2) 4.0 108.5 119.0);
    ("bali_nt",    mkBox (-9.5) (-8.0) 115.0 119.0);
    ("sulawesi",   mkBox (-6.5) 1.5 118.5 125.0) ]%float.

(** The list of exclusion boxes: Malaysia Barat, Singapura, Malaysia
    Timur and Brunei, Filipina selatan, Timor Leste, Papua Nugini. *)
Definition FORBIDDEN_AREAS : list GeoBox :=
  [ mkBox 1.0 7.0 99.0 105.0;
    mkBox 1.2 1.5 103.5 104.2;
    mkBox 4.0 8.0 109.0 120.0;
    mkBox 4.0 7.0 116.0 127.0;
    mkBox (-9.5) (-8.0) 124.0 127.5;
    mkBox (-11.0) (-1.0) 140.0 155.0 ]%float.

(** The dict of the three input files, in insertion order. *)
Definition PARQUET_FILES : list (string * string) :=
  [ ("matched",  "src/esb_3pulau_ultra_precise_matches.parquet");
    ("esb",      "src/Tarikan_data_ESB_3_Pulau_2025.parquet");
    ("scraping", "src/data_3_pulau_final.parquet") ].

End Config.

(** ** GeoRegion validator *)

(** The test both loops apply to a box:
    [b['min_lat'] <= lat <= b['max_lat'] and b['min_lon'] <= lon <= b['max_lon']]. *)
Definition in_box (b : GeoBox) (lat lon : float) : bool :=
  ((min_lat b <=? lat) && (lat <=? max_lat b) &&
   ((min_lon b <=? lon) && (lon <=? max_lon b)))%float.

(** The [for area in areas: if ...: return True] loop followed by
    [return False]. *)
Fixpoint any_box (areas : list GeoBox) (lat lon : float) : bool :=
  match areas with
  | [] => false
  | area :: rest => if in_box area lat lon then true else any_box rest lat lon
  end.

Definition is_in_forbidden_area (lat lon : float) : bool :=
  any_box Config.FORBIDDEN_AREAS lat lon.

(** [pd.isna] on a float. *)
Definition isna (x : float) : bool := PrimFloat.is_nan x.

Definition validate_indonesia_strict (lat lon : float) : bool :=
  if isna lat || isna lon then false
  else if (negb ((-90 <=? lat) && (lat <=? 90)) ||
           negb ((-180 <=? lon) && (lon <=? 180)))%float then false
  else if is_in_forbidden_area lat lon then false
  else any_box (snd <$> Config.INDONESIA_STRICT_BOUNDS) lat lon.

(** A point is inside a box: the four closed bounds, as a proposition. *)
Definition inside (b : GeoBox) (lat lon : float) : Prop :=
  (min_lat b <=? lat)%float = true ∧ (lat <=? max_lat b)%float = true ∧
  (min_lon b <=? lon)%float = true ∧ (lon <=? max_lon b)%float = true.

(** ** Tables, messages and exceptions

    A pandas [DataFrame] is a list of column labels and a list of rows; a row
    maps column labels to cells. A cell is missing ([None] or NaN in an
    object column), a number, or text. Row counts are Python integers. *)

Inductive cell :=
| Null
| Num (x : float)
| Str (s : string).

Abbreviation row := (gmap string cell).

Record DataFrame := mkFrame {
  columns : list string;
  rows : list row
}.

(** [pd.DataFrame()] *)
Definition pd_DataFrame : DataFrame := mkFrame [] [].

(** [df.empty]: some axis has length 0. *)
Definition empty (df : DataFrame) : bool :=
  match rows df, columns df with
  | [], _ | _, [] => true
  | _, _ => false
  end.

Definition len (df : DataFrame) : Z := Z.of_nat (length (rows df)).

Definition cell_at (r : row) (col : string) : cell := default Null (r !! col).

(** The frame of the rows that satisfy a test. *)
Definition select (mask : row → bool) (df : DataFrame) : DataFrame :=
  mkFrame (columns df) (List.filter mask (rows df)).

(** The exceptions the modelled statements can raise. *)
Inductive exn :=
| KeyError (key : string)
| AttributeError.

(** Streamlit output: the call used and what it reports. The wording of a
    message is presentation; its level, dataset and counts are kept. *)
Inductive level := st_write | st_info | st_success | st_warning | st_error.

Inductive text :=
| FrameEmpty
| ColumnsNotFound (lat_col lon_col : string)
| NoDataAfterDropna
| NoDataAfterNumeric
| Processing (n : Z)
| DeepAnalysis
| LatitudeStats
| LongitudeStats
| ClearlyWrong (n : Z)
| InNeighbourCountries (n : Z)
| SamplePoint (lat lon : float)
| Processed (before after removed : Z)
| Filtered (n : Z)
| ProcessingError (e : exn).

Record message := mkMsg {
  msg_level : level;
  msg_dataset : string;
  msg_text : text
}.

(** A statement either returns a value or raises; the messages written so
    far are kept in both cases. *)
Inductive outcome (A : Type) :=
| Returned (a : A)
| Raised (e : exn).
Arguments Returned {A} a.
Arguments Raised {A} e.

Definition St (A : Type) : Type := list message → outcome A * list message.

#[export] Instance St_ret : MRet St := λ A a log, (Returned a, log).
#[export] Instance St_bind : MBind St := λ A B k m log,
  match m log with
  | (Returned a, log') => k a log'
  | (Raised e, log') => (Raised e, log')
  end.

Definition raise {A} (e : exn) : St A := λ log, (Raised e, log).

Definition say (lv : level) (dataset : string) (t : text) : St unit :=
  λ log, (Returned (), log ++ [mkMsg lv dataset t]).

(** [if cond: body] for a body that only writes messages. *)
Definition when (cond : bool) (body : St unit) : St unit :=
  if cond then body else mret ().

(** [for x in xs: body x] *)
Fixpoint for_each {A} (xs : list A) (body : A → St unit) : St unit :=
  match xs with
  | [] => mret ()
  | x :: rest => body x ;; for_each rest body
  end.

(** [try: body / except Exception as e: handler e] *)
Definition try_except {A} (body : St A) (handler : exn → St A) : St A :=
  λ log,
    match body log with
    | (Returned a, log') => (Returned a, log')
    | (Raised e, log') => handler e log'
    end.

Definition run {A} (m : St A) : outcome A * list message := m [].

(** The library functions the source calls on text, whose code is not part
    of the repository: [str.upper] and the parser behind
    [pd.to_numeric(..., errors='coerce')], which gives NaN for text that is
    not a number. *)
Class Pandas := {
  upper : string → string;
  parse_numeric : string → float
}.

(** ** Series operations *)

(** [df[col]]: the cells of a column, [KeyError] when the label is absent. *)
Definition column (df : DataFrame) (col : string) : St (list cell) :=
  if bool_decide (col ∈ columns df) then mret ((λ r, cell_at r col) <$> rows df)
  else raise (KeyError col).

(** [df[mask]] for a boolean Series aligned with the rows. *)
Definition mask_rows (df : DataFrame) (mask : list bool) : DataFrame :=
  mkFrame (columns df) (fst <$> List.filter snd (zip (rows df) mask)).

(** [df.apply(lambda row: f row, axis=1)] *)
Definition apply_rows {A} (f : row → A) (df : DataFrame) : list A := f <$> rows df.

(** [pd.isna] on a cell. *)
Definition cell_isna (c : cell) : bool :=
  match c with
  | Null => true
  | Num x => isna x
  | Str _ => false
  end.

(** [df.dropna(subset=subset)] *)
Definition dropna (subset : list string) (df : DataFrame) : DataFrame :=
  mask_rows df
    (apply_rows (λ r, forallb (λ col, negb (cell_isna (cell_at r col))) subset) df).

(** [pd.to_numeric(_, errors='coerce')] on one cell. *)
Definition to_numeric `{Pandas} (c : cell) : cell :=
  match c with
  | Null => Num nan
  | Num x => Num x
  | Str s => Num (parse_numeric s)
  end.

(** [df[col] = f(df[col])] for a label the frame has. *)
Definition assign (col : string) (f : cell → cell) (df : DataFrame) : DataFrame :=
  mkFrame (columns df) ((λ r, <[col := f (cell_at r col)]> r) <$> rows df).

(** The float a cell of a numeric column holds; a missing value is NaN. *)
Definition as_number (c : cell) : option float :=
  match c with
  | Null => Some nan
  | Num x => Some x
  | Str _ => None
  end.

Definition number (c : cell) : float := default nan (as_number c).

(** [df[col].describe()]: the label must exist. Of the summary only what
    the source reads is kept: whether it has the entries ['min'] and ['max'],
    which the summary of a column holding text has not. *)
Definition describe (df : DataFrame) (col : string) : St bool :=
  cells ← column df col ;
  mret (forallb (λ c, bool_decide (is_Some (as_number c))) cells).

(** [stats['min']] and [stats['max']], read when the statistics line is
    formatted. *)
Definition min_max (stats : bool) : St unit :=
  if stats then mret () else raise (KeyError "min").

(** ** Coordinate cleaner *)

(** The mask of [clearly_wrong] in [detect_and_fix_coordinate_issues]. *)
Definition clearly_wrong_mask (lat lon : float) : bool :=
  ((90 <? abs lat) || (180 <? abs lon) || (lat =? 0) || (lon =? 0))%float.

Definition detect_and_fix_coordinate_issues
    (df : DataFrame) (lat_col lon_col dataset_name : string) : St DataFrame :=
  if empty df then mret df
  else
    say st_write dataset_name DeepAnalysis ;;
    lat_stats ← describe df lat_col ;
    lon_stats ← describe df lon_col ;
    min_max lat_stats ;;
    say st_write dataset_name LatitudeStats ;;
    min_max lon_stats ;;
    say st_write dataset_name LongitudeStats ;;
    let lat_of r := number (cell_at r lat_col) in
    let lon_of r := number (cell_at r lon_col) in
    let clearly_wrong := mask_rows df
      (apply_rows (λ r, clearly_wrong_mask (lat_of r) (lon_of r)) df) in
    when (0 <? len clearly_wrong)%Z
      (say st_warning dataset_name (ClearlyWrong (len clearly_wrong))) ;;
    let in_neighbor_countries := mask_rows df
      (apply_rows (λ r, is_in_forbidden_area (lat_of r) (lon_of r)) df) in
    when (0 <? len in_neighbor_countries)%Z
      (say st_error dataset_name (InNeighbourCountries (len in_neighbor_countries)) ;;
       for_each (take 5 (rows in_neighbor_countries))
         (λ r, say st_write dataset_name (SamplePoint (lat_of r) (lon_of r)))) ;;
    let valid_mask :=
      apply_rows (λ r, validate_indonesia_strict (lat_of r) (lon_of r)) df in
    let valid_data := mask_rows df valid_mask in
    let removed_count := (len df - len valid_data)%Z in
    when (0 <? removed_count)%Z
      (say st_success dataset_name (Processed (len df) (len valid_data) removed_count)) ;;
    mret valid_data.

Definition clean_and_validate_coordinates_strict `{Pandas}
    (df : DataFrame) (lat_col lon_col dataset_name : string) : St DataFrame :=
  if empty df then
    say st_warning dataset_name FrameEmpty ;; mret df
  else if negb (bool_decide (lat_col ∈ columns df)) ||
          negb (bool_decide (lon_col ∈ columns df)) then
    say st_error dataset_name (ColumnsNotFound lat_col lon_col) ;; mret pd_DataFrame
  else
    let df_clean := dropna [lat_col; lon_col] df in
    if empty df_clean then
      say st_warning dataset_name NoDataAfterDropna ;; mret df_clean
    else
      let df_clean := assign lat_col to_numeric df_clean in
      let df_clean := assign lon_col to_numeric df_clean in
      let df_clean := dropna [lat_col; lon_col] df_clean in
      if empty df_clean then
        say st_warning dataset_name NoDataAfterNumeric ;; mret df_clean
      else
        say st_info dataset_name (Processing (len df)) ;;
        detect_and_fix_coordinate_issues df_clean lat_col lon_col dataset_name.

(** ** Matched-name filter of [load_and_process_data_strict] *)

Definition is_text (c : cell) : bool :=
  match c with Str _ => true | _ => false end.

Definition is_num (c : cell) : bool :=
  match c with Num _ => true | _ => false end.

(** [df[col].str.upper()]. The [.str] accessor is refused with
    [AttributeError] on a column of numbers; otherwise text is uppercased and
    every other cell becomes missing. *)
Definition str_upper `{Pandas} (df : DataFrame) (col : string) : St (list cell) :=
  cells ← column df col ;
  if existsb is_num cells && negb (existsb is_text cells) then raise AttributeError
  else mret ((λ c, match c with Str s => Str (upper s) | _ => Null end) <$> cells).

(** [set(series.dropna().unique())] on a Series of text. *)
Definition name_set (cells : list cell) : gset string :=
  list_to_set (omap (λ c, match c with Str s => Some s | _ => None end) cells).

(** [series.isin(names)] on one cell; a missing value is not a member. *)
Definition isin (names : gset string) (c : cell) : bool :=
  match c with
  | Str s => bool_decide (s ∈ names)
  | _ => false
  end.

(** The block under [if not green_data.empty:], lines 283-287 for the ESB
    side and 318-322 for the scraping side. *)
Definition filter_matched `{Pandas}
    (side : string) (green_data data : DataFrame) : St DataFrame :=
  if negb (empty green_data) then
    let original_count := len data in
    green_names ← str_upper green_data "nama_restoran" ;
    let matched_names := name_set green_names in
    names ← str_upper data "nama_restoran" ;
    let data := mask_rows data ((λ c, negb (isin matched_names c)) <$> names) in
    say st_info side (Filtered (original_count - len data)) ;;
    mret data
  else mret data.

(** One side of the reconciliation. The side's section of the pipeline is
    entered only when its cleaned frame has rows, and the normalized frame
    has rows exactly then; the filter runs inside the section's [try], whose
    handler reports the exception and leaves the frame as it was. The
    normalizing statements that precede the filter in the [try] are not part
    of this model. *)
Definition filter_side `{Pandas} (side : string) (green_data data : DataFrame)
    : St DataFrame :=
  if negb (empty data) then
    try_except (filter_matched side green_data data)
      (λ e, say st_error side (ProcessingError e) ;; mret data)
  else mret data.

(** The reconciliation step of [load_and_process_data_strict] on the three
    normalized frames: the ESB side, then the scraping side, then
    [return green_data, orange_data, blue_data]. *)
Definition reconcile `{Pandas} (green_data orange_data blue_data : DataFrame)
    : St (DataFrame * DataFrame * DataFrame) :=
  orange_data ← filter_side "ESB" green_data orange_data ;
  blue_data ← filter_side "Scraping" green_data blue_data ;
  mret (green_data, orange_data, blue_data).

(** The count a side reports as filtered: the numbers of its
    [Filtered] messages, 0 when it wrote none. *)
Definition filtered_count (side : string) (log : list message) : Z :=
  foldr Z.add 0%Z
    (omap (λ m, match msg_text m with
                | Filtered n => if bool_decide (msg_dataset m = side) then Some n else None
                | _ => None
                end) log).

(** ** Normalizing statements of [load_and_process_data_strict] *)

(** What Python's [str] and f-strings give for a value that is not text,
    and [str.strip]; their code is not part of the repository. *)
Class PyText := {
  str_float : float → string;
  str_missing : string;
  strip : string → string
}.

(** [str(value)], also what [f"{value}"] inserts. *)
Definition to_str `{PyText} (c : cell) : string :=
  match c with
  | Str s => s
  | Num x => str_float x
  | Null => str_missing
  end.

(** The frame of the listed columns of a frame that has them. *)
Definition project (cols : list string) (df : DataFrame) : DataFrame :=
  mkFrame cols
    ((λ r, list_to_map ((λ col, (col, cell_at r col)) <$> cols)) <$> rows df).

(** [df[[c1, ..., cn]]]: the frame of the listed columns; [KeyError] when a
    label is absent (pandas names every absent label in the message, the
    first one is kept here). *)
Definition select_columns (cols : list string) (df : DataFrame) : St DataFrame :=
  match List.find (λ col, negb (bool_decide (col ∈ columns df))) cols with
  | Some col => raise (KeyError col)
  | None => mret (project cols df)
  end.

(** The label a renaming gives a column: the mapped one, or its own. *)
Definition new_label (mapping : list (string * string)) (col : string) : string :=
  default col (snd <$> List.find (λ p, bool_decide (p.1 = col)) mapping).

(** [df.rename(columns=mapping)], for a mapping that keeps the labels
    distinct. *)
Definition rename (mapping : list (string * string)) (df : DataFrame) : DataFrame :=
  mkFrame (new_label mapping <$> columns df)
    ((λ r, list_to_map ((λ col, (new_label mapping col, cell_at r col)) <$> columns df))
       <$> rows df).

(** [df[col] = values], one value per row; a new label is appended. *)
Definition set_column (col : string) (value : row → cell) (df : DataFrame) : DataFrame :=
  mkFrame (if bool_decide (col ∈ columns df) then columns df else columns df ++ [col])
    ((λ r, <[col := value r]> r) <$> rows df).

(** [try: x = step1 / x = step2 / ... except Exception as e: handler e] for
    statements that assign one variable: when a statement raises, the handler
    runs and the variable keeps the value of the last assignment made. *)
Fixpoint try_assignments {A} (steps : list (A → St A)) (handler : exn → St unit)
    (x : A) : St A :=
  match steps with
  | [] => mret x
  | step :: rest => λ log,
      match step x log with
      | (Returned x', log') => try_assignments rest handler x' log'
      | (Raised e, log') => (handler e ;; mret x) log'
      end
  end.

(** The lambda that builds ['nama_restoran'] of an ESB row. *)
Definition esb_name `{PyText} (r : row) : cell :=
  let branch := cell_at r "branchName" in
  if negb (cell_isna branch) &&
     negb (bool_decide (strip (to_str branch) = EmptyString))
  then Str (to_str (cell_at r "brandName") ++ " - " ++ to_str branch)
  else cell_at r "brandName".

(** Lines 221-248: the matched table is cleaned, and when rows are left it
    is normalized inside a [try]. *)
Definition matched_section `{Pandas} (df_matched : DataFrame) : St DataFrame :=
  df_matched_clean ← clean_and_validate_coordinates_strict
    df_matched "latitude_esb" "longitude_esb" "Matched Data" ;
  let green_data := pd_DataFrame in
  if negb (empty df_matched_clean) then
    try_assignments
      [ (λ _, select_columns
           ["brand_pulau"; "longitude_esb"; "latitude_esb";
            "address_esb"; "address_pulau"; "final_score"; "match_confidence"]
           df_matched_clean);
        (λ green_data, mret (rename
           [("brand_pulau", "nama_restoran"); ("latitude_esb", "lat");
            ("longitude_esb", "lon"); ("address_esb", "alamat_esb");
            ("address_pulau", "alamat_pulau"); ("final_score", "similarity_score");
            ("match_confidence", "confidence")] green_data));
        (λ green_data, mret (set_column "kategori" (λ _, Str "Match") green_data));
        (λ green_data, mret (set_column "color" (λ _, Str "green") green_data));
        (λ green_data, mret (set_column "source" (λ _, Str "matched") green_data)) ]
      (λ e, say st_error "Matched" (ProcessingError e))
      green_data
  else mret green_data.

(** Lines 253-290: the ESB table is cleaned, and when rows are left it is
    normalized and filtered against the matched names inside a [try]. *)
Definition esb_section `{Pandas} `{PyText} (green_data df_esb : DataFrame)
    : St DataFrame :=
  df_esb_clean ← clean_and_validate_coordinates_strict
    df_esb "latitude" "longitude" "ESB Data" ;
  let orange_data := pd_DataFrame in
  if negb (empty df_esb_clean) then
    try_assignments
      [ (λ _, select_columns
           ["branchName"; "brandName"; "latitude"; "longitude";
            "address"; "cityName"; "provinceName"] df_esb_clean);
        (λ orange_data, mret (set_column "nama_restoran" esb_name orange_data));
        (λ orange_data, mret (rename
           [("latitude", "lat"); ("longitude", "lon"); ("address", "alamat")]
           orange_data));
        (λ orange_data, mret (set_column "kategori" (λ _, Str "Hanya ESB") orange_data));
        (λ orange_data, mret (set_column "color" (λ _, Str "orange") orange_data));
        (λ orange_data, mret (set_column "source" (λ _, Str "esb") orange_data));
        filter_matched "ESB" green_data ]
      (λ e, say st_error "ESB" (ProcessingError e))
      orange_data
  else mret orange_data.

(** Lines 295-325: the same for the scraping table. *)
Definition scraping_section `{Pandas} (green_data df_scraping : DataFrame)
    : St DataFrame :=
  df_scraping_clean ← clean_and_validate_coordinates_strict
    df_scraping "latitude" "longitude" "Scraping Data" ;
  let blue_data := pd_DataFrame in
  if negb (empty df_scraping_clean) then
    try_assignments
      [ (λ _, select_columns ["title"; "address"; "longitude"; "latitude"]
           df_scraping_clean);
        (λ blue_data, mret (rename
           [("title", "nama_restoran"); ("latitude", "lat");
            ("longitude", "lon"); ("address", "alamat")] blue_data));
        (λ blue_data, mret (set_column "kategori" (λ _, Str "Hanya Scraping") blue_data));
        (λ blue_data, mret (set_column "color" (λ _, Str "blue") blue_data));
        (λ blue_data, mret (set_column "source" (λ _, Str "scraping") blue_data));
        filter_matched "Scraping" green_data ]
      (λ e, say st_error "Scraping" (ProcessingError e))
      blue_data
  else mret blue_data.

(** Lines 218-326 of [load_and_process_data_strict]: the three sections, in
    order, on the three tables read from the files. *)
Definition process_data `{Pandas} `{PyText} (df_matched df_esb df_scraping : DataFrame)
    : St (DataFrame * DataFrame * DataFrame) :=
  green_data ← matched_section df_matched ;
  orange_data ← esb_section green_data df_esb ;
  blue_data ← scraping_section green_data df_scraping ;
  mret (green_data, orange_data, blue_data).

(** ** Files and the whole of [load_and_process_data_strict] *)

(** What the program asks of the file system: [os.path.exists], and
    [pd.read_parquet], which gives a table or raises. *)
Record FileSystem := {
  path_exists : string → bool;
  read_parquet : string → option DataFrame
}.

(** [Config.PARQUET_FILES[key]] *)
Definition parquet_file (key : string) : string :=
  default EmptyString
    (snd <$> List.find (λ p, bool_decide (p.1 = key)) Config.PARQUET_FILES).

(** What the application writes: the messages of the stages above, and the
    messages about files, loading and the final summary. *)
Inductive event :=
| Stage (m : message)
| CheckingFiles
| FileFound (file_type file_path : string)
| FileNotFound (file_type file_path : string)
| LoadingData
| DataLoaded (matched esb scraping : Z)
| LoadError
| Finished (matched esb scraping total : Z)
| SidebarFileFound (file_type file_path : string)
| SidebarFileNotFound (file_type file_path : string).

Definition App (A : Type) : Type := list event → outcome A * list event.

#[export] Instance App_ret : MRet App := λ A a log, (Returned a, log).
#[export] Instance App_bind : MBind App := λ A B k m log,
  match m log with
  | (Returned a, log') => k a log'
  | (Raised e, log') => (Raised e, log')
  end.

Definition tell (e : event) : App unit := λ log, (Returned (), log ++ [e]).

(** A stage run inside the application: its messages follow the ones
    already written. *)
Definition stage {A} (m : St A) : App A :=
  λ log, let '(result, messages) := m [] in (result, log ++ (Stage <$> messages)).

(** The loop of lines 198-203 over the files that are left: [true] when it
    ends, [false] when it meets a missing file, where the function returns. *)
Fixpoint check_files (fs : FileSystem) (files : list (string * string)) : App bool :=
  match files with
  | [] => mret true
  | (file_type, file_path) :: rest =>
      if path_exists fs file_path then
        tell (FileFound file_type file_path) ;; check_files fs rest
      else
        tell (FileNotFound file_type file_path) ;; mret false
  end.

(** The function without its cache decorator. *)
Definition load_and_process_data_strict `{Pandas} `{PyText} (fs : FileSystem)
    : App (DataFrame * DataFrame * DataFrame) :=
  tell CheckingFiles ;;
  found ← check_files fs Config.PARQUET_FILES ;
  if negb found then mret (pd_DataFrame, pd_DataFrame, pd_DataFrame)
  else
    tell LoadingData ;;
    match read_parquet fs (parquet_file "matched") with
    | None => tell LoadError ;; mret (pd_DataFrame, pd_DataFrame, pd_DataFrame)
    | Some df_matched =>
    match read_parquet fs (parquet_file "esb") with
    | None => tell LoadError ;; mret (pd_DataFrame, pd_DataFrame, pd_DataFrame)
    | Some df_esb =>
    match read_parquet fs (parquet_file "scraping") with
    | None => tell LoadError ;; mret (pd_DataFrame, pd_DataFrame, pd_DataFrame)
    | Some df_scraping =>
        tell (DataLoaded (len df_matched) (len df_esb) (len df_scraping)) ;;
        '(green_data, orange_data, blue_data) ←
          stage (process_data df_matched df_esb df_scraping) ;
        let total_records := (len green_data + len orange_data + len blue_data)%Z in
        tell (Finished (len green_data) (len orange_data) (len blue_data)
                total_records) ;;
        mret (green_data, orange_data, blue_data)
    end end end.

(** The loop of [check_default_files] over the files that are left, with the
    dict built so far. *)
Fixpoint check_default_files_from (fs : FileSystem) (files : list (string * string))
    (available_files : gmap string string) : App (gmap string string) :=
  match files with
  | [] => mret available_files
  | (file_type, file_path) :: rest =>
      if path_exists fs file_path then
        tell (SidebarFileFound file_type file_path) ;;
        check_default_files_from fs rest (<[file_type := file_path]> available_files)
      else
        tell (SidebarFileNotFound file_type file_path) ;;
        check_default_files_from fs rest available_files
  end.

Definition check_default_files (fs : FileSystem) : App (gmap string string) :=
  check_default_files_from fs Config.PARQUET_FILES ∅.

(** ** Statistics *)

(** [Series.value_counts()]: the distinct values that are not missing with
    the number of times each occurs, the most frequent first. Its code is
    not part of the repository. *)
Class PandasCounts := {
  value_counts : list cell → list (cell * Z)
}.

(** [pd.concat(frames, ignore_index=True)]: the rows of the frames in
    order, under the union of their columns in order of first appearance. *)
Definition concat (frames : list DataFrame) : DataFrame :=
  mkFrame
    (foldl (λ cols col, if bool_decide (col ∈ cols) then cols else cols ++ [col])
       [] (frames ≫= columns))
    (frames ≫= rows).

(** A plotly figure, as far as the data handed to it goes: an empty figure
    with one annotation, or a single trace with its values. Titles, colours
    and layout are presentation. *)
Inductive figure :=
| Annotation (note : string)
| Pie (values : list Z)
| Bar (values : list Z)
| Histogram (x : list cell)
| HorizontalBar (top : list (cell * Z)).

(** The eight values [create_comprehensive_statistics] returns. *)
Record Statistics := mkStatistics {
  fig_pie : figure;
  fig_bar : figure;
  fig_similarity : figure;
  fig_top : figure;
  total_green : Z;
  total_orange : Z;
  total_blue : Z;
  total_all : Z
}.

Definition create_comprehensive_statistics `{PandasCounts}
    (green_data orange_data blue_data : DataFrame) : Statistics :=
  let total_green := if negb (empty green_data) then len green_data else 0%Z in
  let total_orange := if negb (empty orange_data) then len orange_data else 0%Z in
  let total_blue := if negb (empty blue_data) then len blue_data else 0%Z in
  let total_all := (total_green + total_orange + total_blue)%Z in
  if (total_all =? 0)%Z then
    let empty_fig := Annotation "Tidak ada data untuk ditampilkan" in
    mkStatistics empty_fig empty_fig empty_fig empty_fig 0 0 0 0
  else
    let sizes := [total_green; total_orange; total_blue] in
    let fig_pie := Pie sizes in
    let fig_bar := Bar [total_green; total_orange; total_blue] in
    let fig_similarity :=
      if negb (empty green_data) &&
         bool_decide ("similarity_score" ∈ columns green_data) then
        let sim := List.filter (λ c, negb (cell_isna c))
                     ((λ r, cell_at r "similarity_score") <$> rows green_data) in
        if (0 <? Z.of_nat (length sim))%Z then Histogram sim
        else Annotation "Tidak ada data similarity"
      else Annotation "Tidak ada data match" in
    let all_rest := concat [green_data; orange_data; blue_data] in
    let fig_top :=
      if negb (empty all_rest) && bool_decide ("nama_restoran" ∈ columns all_rest) then
        let top := take 15 (value_counts
                     ((λ r, cell_at r "nama_restoran") <$> rows all_rest)) in
        if (0 <? Z.of_nat (length top))%Z then HorizontalBar top
        else Annotation "Tidak ada data restoran"
      else Annotation "Tidak ada data restoran" in
    mkStatistics fig_pie fig_bar fig_similarity fig_top
      total_green total_orange total_blue total_all.

(** The four figures are the empty figure of the case without data. *)
Definition empty_figures (stats : Statistics) : bool :=
  let is_empty fig :=
    match fig with
    | Annotation note => bool_decide (note = "Tidak ada data untuk ditampilkan")
    | _ => false
    end in
  is_empty (fig_pie stats) && is_empty (fig_bar stats) &&
  is_empty (fig_similarity stats) && is_empty (fig_top stats).

(** ** Names of a frame, for the statements *)

(** The name field of a row of a frame: the cell under ['nama_restoran'],
    missing when the frame has no such column. *)
Definition name_cell (df : DataFrame) (r : row) : cell :=
  if bool_decide ("nama_restoran" ∈ columns df) then cell_at r "nama_restoran"
  else Null.

(** The text names of a frame, in row order. *)
Definition names (df : DataFrame) : list string :=
  omap (λ r, match name_cell df r with Str s => Some s | _ => None end) (rows df).

(** The set of normalized (uppercased) names of a frame. *)
Definition normalized_names `{Pandas} (df : DataFrame) : gset string :=
  list_to_set (upper <$> names df).

(** A row of [df] whose name is text that, uppercased, is the uppercased
    name of a row of [matched]. *)
Definition name_in_matched `{Pandas} (matched df : DataFrame) (r : row) : bool :=
  match name_cell df r with
  | Str s => bool_decide (upper s ∈ normalized_names matched)
  | _ => false
  end.

(** A row of [df] whose name is missing. *)
Definition name_missing (df : DataFrame) (r : row) : bool :=
  cell_isna (name_cell df r).

(** The rows of [df] whose name is not in [matched]. *)
Definition unmatched `{Pandas} (matched df : DataFrame) : DataFrame :=
  select (λ r, negb (name_in_matched matched df r)) df.

(** ** Rows of the cleaned frame, for the statements *)

(** A row after the two [pd.to_numeric] assignments of the cleaner. *)
Definition coerce_row `{Pandas} (lat_col lon_col : string) (r : row) : row :=
  let r := <[lat_col := to_numeric (cell_at r lat_col)]> r in
  <[lon_col := to_numeric (cell_at r lon_col)]> r.

(** The region validator on the two coordinate cells of a row. *)
Definition row_valid (lat_col lon_col : string) (r : row) : bool :=
  validate_indonesia_strict (number (cell_at r lat_col)) (number (cell_at r lon_col)).




(** [m] returns [a] from every log, and only adds messages. *)
Definition returns {A} (m : St A) (a : A) : Prop :=
  ∀ log, ∃ more, m log = (Returned a, log ++ more).

(** ** Frames of the pipeline, for the statements *)

(** The frame the cleaner returns. *)
Definition cleaned `{Pandas} (lat_col lon_col : string) (df : DataFrame) : DataFrame :=
  if empty df then df
  else if bool_decide (lat_col ∈ columns df) && bool_decide (lon_col ∈ columns df) then
    mkFrame (columns df)
      (List.filter (row_valid lat_col lon_col) (coerce_row lat_col lon_col <$> rows df))
  else pd_DataFrame.

(** The frame has every listed column. *)
Definition has_columns (cols : list string) (df : DataFrame) : bool :=
  forallb (λ col, bool_decide (col ∈ columns df)) cols.

(** The normalized frames of the three sections, from their cleaned tables,
    before any filtering. *)
Definition normalized_matched (df_clean : DataFrame) : DataFrame :=
  set_column "source" (λ _, Str "matched")
    (set_column "color" (λ _, Str "green")
       (set_column "kategori" (λ _, Str "Match")
          (rename
             [("brand_pulau", "nama_restoran"); ("latitude_esb", "lat");
              ("longitude_esb", "lon"); ("address_esb", "alamat_esb");
              ("address_pulau", "alamat_pulau"); ("final_score", "similarity_score");
              ("match_confidence", "confidence")]
             (project
                ["brand_pulau"; "longitude_esb"; "latitude_esb";
                 "address_esb"; "address_pulau"; "final_score"; "match_confidence"]
                df_clean)))).

Definition normalized_esb `{PyText} (df_clean : DataFrame) : DataFrame :=
  set_column "source" (λ _, Str "esb")
    (set_column "color" (λ _, Str "orange")
       (set_column "kategori" (λ _, Str "Hanya ESB")
          (rename [("latitude", "lat"); ("longitude", "lon"); ("address", "alamat")]
             (set_column "nama_restoran" esb_name
                (project
                   ["branchName"; "brandName"; "latitude"; "longitude";
                    "address"; "cityName"; "provinceName"] df_clean))))).

Definition normalized_scraping (df_clean : DataFrame) : DataFrame :=
  set_column "source" (λ _, Str "scraping")
    (set_column "color" (λ _, Str "blue")
       (set_column "kategori" (λ _, Str "Hanya Scraping")
          (rename
             [("title", "nama_restoran"); ("latitude", "lat");
              ("longitude", "lon"); ("address", "alamat")]
             (project ["title"; "address"; "longitude"; "latitude"] df_clean)))).

(** The frames the three sections return. *)
Definition green_frame `{Pandas} (df_matched : DataFrame) : DataFrame :=
  let df_clean := cleaned "latitude_esb" "longitude_esb" df_matched in
  if negb (empty df_clean) &&
     has_columns ["brand_pulau"; "longitude_esb"; "latitude_esb";
                  "address_esb"; "address_pulau"; "final_score"; "match_confidence"]
       df_clean
  then normalized_matched df_clean else pd_DataFrame.

Definition orange_unfiltered `{Pandas} `{PyText} (df_esb : DataFrame) : DataFrame :=
  let df_clean := cleaned "latitude" "longitude" df_esb in
  if negb (empty df_clean) &&
     has_columns ["branchName"; "brandName"; "latitude"; "longitude";
                  "address"; "cityName"; "provinceName"] df_clean
  then normalized_esb df_clean else pd_DataFrame.

Definition blue_unfiltered `{Pandas} (df_scraping : DataFrame) : DataFrame :=
  let df_clean := cleaned "latitude" "longitude" df_scraping in
  if negb (empty df_clean) &&
     has_columns ["title"; "address"; "longitude"; "latitude"] df_clean
  then normalized_scraping df_clean else pd_DataFrame.

(** What holds of a frame the pipeline returns for one side: it is
    [pd.DataFrame()] or has the side's columns; its rows carry the side's
    three tags and coordinates the validator accepts. *)
Definition side_frame (cols : list string) (kategori color source : string)
    (df : DataFrame) : Prop :=
  (df = pd_DataFrame ∨ columns df = cols) ∧
  ∀ r, r ∈ rows df →
    row_valid "lat" "lon" r = true ∧
    cell_at r "kategori" = Str kategori ∧
    cell_at r "color" = Str color ∧
    cell_at r "source" = Str source.

(** The tables the pipeline gets to process: the three files exist and are
    read. *)
Definition loaded (fs : FileSystem) : option (DataFrame * DataFrame * DataFrame) :=
  if forallb (λ file, path_exists fs file.2) Config.PARQUET_FILES then
    df_matched ← read_parquet fs (parquet_file "matched") ;
    df_esb ← read_parquet fs (parquet_file "esb") ;
    df_scraping ← read_parquet fs (parquet_file "scraping") ;
    Some (df_matched, df_esb, df_scraping)
  else None.

(** The three frames the pipeline returns. *)
Definition pipeline_frames `{Pandas} `{PyText} (fs : FileSystem)
    : DataFrame * DataFrame * DataFrame :=
  match loaded fs with
  | Some (df_matched, df_esb, df_scraping) =>
      (green_frame df_matched,
       unmatched (green_frame df_matched) (orange_unfiltered df_esb),
       unmatched (green_frame df_matched) (blue_unfiltered df_scraping))
  | None => (pd_DataFrame, pd_DataFrame, pd_DataFrame)
  end.

(** The messages [detect_and_fix_coordinate_issues] writes on a table with
    rows whose coordinate columns hold numbers. *)
Definition detect_messages (df : DataFrame) (lat_col lon_col dataset_name : string)
    : list message :=
  let lat_of r := number (cell_at r lat_col) in
  let lon_of r := number (cell_at r lon_col) in
  let flagged := select (λ r, clearly_wrong_mask (lat_of r) (lon_of r)) df in
  let abroad := select (λ r, is_in_forbidden_area (lat_of r) (lon_of r)) df in
  let valid := select (row_valid lat_col lon_col) df in
  [mkMsg st_write dataset_name DeepAnalysis;
   mkMsg st_write dataset_name LatitudeStats;
   mkMsg st_write dataset_name LongitudeStats] ++
  (if (0 <? len flagged)%Z
   then [mkMsg st_warning dataset_name (ClearlyWrong (len flagged))] else []) ++
  (if (0 <? len abroad)%Z
   then mkMsg st_error dataset_name (InNeighbourCountries (len abroad)) ::
        ((λ r, mkMsg st_write dataset_name (SamplePoint (lat_of r) (lon_of r)))
           <$> take 5 (rows abroad))
   else []) ++
  (if (0 <? len df - len valid)%Z
   then [mkMsg st_success dataset_name
           (Processed (len df) (len valid) (len df - len valid))]
   else []).

(** A statement that raises [e] at once, writing and changing nothing. *)
Definition raises {A} (m : St A) (e : exn) : Prop :=
  ∀ log, m log = (Raised e, log).

(** An application step that returns [a] and only adds events. *)
Definition app_returns {A} (m : App A) (a : A) : Prop :=
  ∀ log, ∃ more, m log = (Returned a, log ++ more).

(** A file system in which the three configured files exist and hold the
    given tables. *)
Definition holds (fs : FileSystem) (df_matched df_esb df_scraping : DataFrame) : Prop :=
  (∀ file_type file_path, (file_type, file_path) ∈ Config.PARQUET_FILES →
     path_exists fs file_path = true) ∧
  read_parquet fs (parquet_file "matched") = Some df_matched ∧
  read_parquet fs (parquet_file "esb") = Some df_esb ∧
  read_parquet fs (parquet_file "scraping") = Some df_scraping.

(** ** ASCII text

    The instance used in the concrete scenarios: names are ASCII, and no
    coordinate is given as text. *)

Definition upper_char (c : ascii) : ascii :=
  let n := nat_of_ascii c in
  if (97 <=? n)%nat && (n <=? 122)%nat then ascii_of_nat (n - 32) else c.

Fixpoint ascii_upper (s : string) : string :=
  match s with
  | EmptyString => EmptyString
  | String c rest => String (upper_char c) (ascii_upper rest)
  end.

Definition ascii_text : Pandas :=
  {| upper := ascii_upper; parse_numeric := λ _, nan |}.

Fixpoint lstrip (s : string) : string :=
  match s with
  | String " " rest => lstrip rest
  | _ => s
  end.

(** Spaces removed at both ends. *)
Definition ascii_strip (s : string) : string :=
  String.rev (lstrip (String.rev (lstrip s))).

(** The instance used in the concrete scenarios: brands and branches are
    text or missing, and blanks are spaces. *)
Definition plain_text : PyText :=
  {| str_float := λ _, "nan"; str_missing := "None"; strip := ascii_strip |}.

(** * Proofs *)

(** ** Properties of the validator *)

Lemma in_box_inside b lat lon : in_box b lat lon = true ↔ inside b lat lon.
Proof.
  unfold in_box, inside. rewrite !andb_true_iff. tauto.
Qed.

Lemma any_box_exists areas lat lon :
  any_box areas lat lon = true ↔ ∃ b, b ∈ areas ∧ inside b lat lon.
Proof.
  induction areas as [|a rest IH]; simpl.
  - split; [done | intros (b & Hb & _); by apply elem_of_nil in Hb].
  - destruct (in_box a lat lon) eqn:Ha.
    + split; [intros _ | done]. exists a. split; [left | by apply in_box_inside].
    + rewrite IH. split.
      * intros (b & Hb & Hin). exists b. split; [by right | done].
      * intros (b & Hb & Hin). apply elem_of_cons in Hb as [-> | Hb].
        -- apply in_box_inside in Hin. congruence.
        -- by exists b.
Qed.

Lemma any_box_none areas lat lon :
  any_box areas lat lon = false ↔ ∀ b, b ∈ areas → ¬ inside b lat lon.
Proof.
  rewrite <- not_true_iff_false, any_box_exists. split.
  - intros Hn b Hb Hin. apply Hn. by exists b.
  - intros Hn (b & Hb & Hin). by apply (Hn b).
Qed.

(** ** The order of binary64 numbers

    [<=?] on floats is specified by [SFleb] on their decoded form, a
    lexicographic comparison of sign, exponent and mantissa. It is
    transitive, and [x <? y] excludes [y <=? x]. *)

Module FloatOrder.

Ltac cmp_cases :=
  repeat match goal with
  | H : context [Z.compare ?x ?y] |- _ => destruct (Z.compare_spec x y)
  | |- context [Z.compare ?x ?y] => destruct (Z.compare_spec x y)
  | H : context [Pos.compare ?x ?y] |- _ => destruct (Pos.compare_spec x y)
  | |- context [Pos.compare ?x ?y] => destruct (Pos.compare_spec x y)
  end.

Lemma SFleb_trans a b c :
  SFleb a b = true → SFleb b c = true → SFleb a c = true.
Proof.
  unfold SFleb, SFcompare.
  destruct a as [[]|[]| |[] ma ea], b as [[]|[]| |[] mb eb],
    c as [[]|[]| |[] mc ec]; try done;
    change (Pos.compare_cont Eq) with Pos.compare;
    intros Hab Hbc; cmp_cases; simpl in *; try done; try lia.
Qed.

Lemma SFltb_not_leb a b : SFltb a b = true → SFleb b a = false.
Proof.
  unfold SFltb, SFleb, SFcompare.
  destruct a as [[]|[]| |[] ma ea], b as [[]|[]| |[] mb eb]; try done;
    change (Pos.compare_cont Eq) with Pos.compare;
    intros Hab; cmp_cases; simpl in *; try done; try lia.
Qed.

Lemma leb_trans (x y z : float) :
  (x <=? y)%float = true → (y <=? z)%float = true → (x <=? z)%float = true.
Proof. rewrite !leb_spec. apply SFleb_trans. Qed.

Lemma ltb_not_leb (x y : float) :
  (x <? y)%float = true → (y <=? x)%float = false.
Proof. rewrite ltb_spec, leb_spec. apply SFltb_not_leb. Qed.

End FloatOrder.

(** ** Claims on the validator *)

Lemma any_inclusion_box lat lon :
  any_box (snd <$> Config.INDONESIA_STRICT_BOUNDS) lat lon = true ↔
  ∃ region b, (region, b) ∈ Config.INDONESIA_STRICT_BOUNDS ∧ inside b lat lon.
Proof.
  rewrite any_box_exists. split.
  - intros (b & Hb & Hin). apply list_elem_of_fmap in Hb as ([region b'] & -> & Hb).
    by exists region, b'.
  - intros (region & b & Hb & Hin). exists b. split; [|done].
    apply list_elem_of_fmap. by exists (region, b).
Qed.

(** What each [return] of the validator amounts to. *)
Lemma validate_accepts lat lon :
  validate_indonesia_strict lat lon = true ↔
    isna lat = false ∧ isna lon = false ∧
    ((-90 <=? lat) = true ∧ (lat <=? 90) = true)%float ∧
    ((-180 <=? lon) = true ∧ (lon <=? 180) = true)%float ∧
    is_in_forbidden_area lat lon = false ∧
    any_box (snd <$> Config.INDONESIA_STRICT_BOUNDS) lat lon = true.
Proof.
  unfold validate_indonesia_strict.
  generalize (is_in_forbidden_area lat lon)
    (any_box (snd <$> Config.INDONESIA_STRICT_BOUNDS) lat lon).
  intros forbidden allowed.
  destruct (isna lat), (isna lon), (-90 <=? lat)%float, (lat <=? 90)%float,
    (-180 <=? lon)%float, (lon <=? 180)%float, forbidden, allowed;
    cbn [orb andb negb]; intuition congruence.
Qed.

Lemma forbidden_rejected lat lon :
  is_in_forbidden_area lat lon = true → validate_indonesia_strict lat lon = false.
Proof.
  intros Hf. apply not_true_iff_false. rewrite validate_accepts.
  intros (_ & _ & _ & _ & Hnf & _). congruence.
Qed.

(** Membership in a configured list, one entry at a time. *)
Ltac each_entry H :=
  repeat (apply elem_of_cons in H as [H | H]; [try injection H as ? ?; subst|]);
  [..| by apply elem_of_nil in H].

(** C1. A point is accepted exactly when neither coordinate is NaN, the
    latitude is within [-90, 90] and the longitude within [-180, 180], the
    point is inside no exclusion box and inside at least one inclusion box,
    where inside means closed bounds on all four sides; hence a point inside
    no box of either list is rejected. *)
Theorem validate_indonesia_strict_iff (lat lon : float) :
  (validate_indonesia_strict lat lon = true ↔
     isna lat = false ∧ isna lon = false ∧
     ((-90 <=? lat) = true ∧ (lat <=? 90) = true)%float ∧
     ((-180 <=? lon) = true ∧ (lon <=? 180) = true)%float ∧
     (∀ b, b ∈ Config.FORBIDDEN_AREAS → ¬ inside b lat lon) ∧
     (∃ region b, (region, b) ∈ Config.INDONESIA_STRICT_BOUNDS ∧ inside b lat lon))
  ∧ ((∀ b, b ∈ Config.FORBIDDEN_AREAS → ¬ inside b lat lon) →
     (∀ region b, (region, b) ∈ Config.INDONESIA_STRICT_BOUNDS → ¬ inside b lat lon) →
     validate_indonesia_strict lat lon = false).
Proof.
  split.
  - rewrite validate_accepts, any_inclusion_box.
    unfold is_in_forbidden_area. by rewrite any_box_none.
  - intros _ Hnone. apply not_true_iff_false.
    rewrite validate_accepts, any_inclusion_box.
    intros (_ & _ & _ & _ & _ & region & b & Hb & Hin). by apply (Hnone region b).
Qed.

(** Scenario B of the specification (central Jakarta) is accepted, and a
    point of the open sea north of every box is rejected by default. *)
Lemma validate_indonesia_strict_iff_witness :
  validate_indonesia_strict (-6.2) 106.8 = true ∧
  validate_indonesia_strict 10 100 = false.
Proof.
  split.
  - apply (proj1 (validate_indonesia_strict_iff (-6.2) 106.8)).
    repeat split; try reflexivity.
    + intros b Hb (H1 & H2 & H3 & H4). each_entry Hb; vm_compute in *; congruence.
    + exists "jawa", (mkBox (-8.9) (-5.5) 105.5 114.5).
      split; [do 1 right; left | repeat split].
  - apply (proj2 (validate_indonesia_strict_iff 10 100)).
    + intros b Hb (H1 & H2 & H3 & H4). each_entry Hb; vm_compute in *; congruence.
    + intros region b Hb (H1 & H2 & H3 & H4). each_entry Hb; vm_compute in *; congruence.
Defined.

(** The bounds are closed: corners of the Bali and Sumatera boxes are
    accepted, and the next float above the Sulawesi eastern bound is not. *)
Example closed_bounds :
  validate_indonesia_strict (-9.5) 119.0 = true ∧
  validate_indonesia_strict 5.5 95.0 = true ∧
  validate_indonesia_strict 0.5 125.0 = true ∧
  validate_indonesia_strict 0.5 (next_up 125.0) = false.
Proof. repeat split. Qed.

(** C2. Exclusion dominance: a point inside any exclusion box is rejected,
    whatever inclusion boxes it is also inside; the point (1.35, 103.8) is in
    the Singapore exclusion box and in the Sumatera inclusion box, and is
    rejected. *)
Theorem exclusion_dominance :
  (∀ lat lon b, b ∈ Config.FORBIDDEN_AREAS → inside b lat lon →
     validate_indonesia_strict lat lon = false) ∧
  (let singapura := mkBox 1.2 1.5 103.5 104.2 in
   let sumatera := mkBox (-6.0) 5.5 95.0 105.8 in
   singapura ∈ Config.FORBIDDEN_AREAS ∧ inside singapura 1.35 103.8 ∧
   ("sumatera", sumatera) ∈ Config.INDONESIA_STRICT_BOUNDS ∧
   inside sumatera 1.35 103.8 ∧
   validate_indonesia_strict 1.35 103.8 = false).
Proof.
  split.
  - intros lat lon b Hb Hin. apply forbidden_rejected.
    unfold is_in_forbidden_area. apply any_box_exists. by exists b.
  - cbv zeta. split; [right; left|]. split; [repeat split|].
    split; [left|]. split; [repeat split | reflexivity].
Qed.

Lemma exclusion_dominance_witness :
  validate_indonesia_strict 1.35 103.8 = false.
Proof.
  apply (proj1 exclusion_dominance 1.35 103.8 (mkBox 1.2 1.5 103.5 104.2))%float.
  - right; left.
  - repeat split.
Defined.

(** C10. Every accepted point has its latitude in [-9.5, 5.5] and its
    longitude in [95.0, 125.0], the envelope of the five inclusion boxes
    (each of the four bounds is the bound of one of them); every point whose
    longitude exceeds 125.0 is rejected. *)
Theorem accepted_region_envelope (lat lon : float) :
  (validate_indonesia_strict lat lon = true →
     (-9.5 <=? lat)%float = true ∧ (lat <=? 5.5)%float = true ∧
     (95.0 <=? lon)%float = true ∧ (lon <=? 125.0)%float = true) ∧
  ((125.0 <? lon)%float = true → validate_indonesia_strict lat lon = false) ∧
  ((∃ region b, (region, b) ∈ Config.INDONESIA_STRICT_BOUNDS ∧ min_lat b = (-9.5)%float) ∧
   (∃ region b, (region, b) ∈ Config.INDONESIA_STRICT_BOUNDS ∧ max_lat b = 5.5%float) ∧
   (∃ region b, (region, b) ∈ Config.INDONESIA_STRICT_BOUNDS ∧ min_lon b = 95.0%float) ∧
   (∃ region b, (region, b) ∈ Config.INDONESIA_STRICT_BOUNDS ∧ max_lon b = 125.0%float)).
Proof.
  assert (Henv : validate_indonesia_strict lat lon = true →
     (-9.5 <=? lat)%float = true ∧ (lat <=? 5.5)%float = true ∧
     (95.0 <=? lon)%float = true ∧ (lon <=? 125.0)%float = true).
  { rewrite validate_accepts, any_inclusion_box.
    intros (_ & _ & _ & _ & _ & region & b & Hb & H1 & H2 & H3 & H4).
    each_entry Hb; cbn [min_lat max_lat min_lon max_lon] in *;
      repeat split;
      first [ eapply FloatOrder.leb_trans; [|eassumption]; reflexivity
            | eapply FloatOrder.leb_trans; [eassumption|]; reflexivity ]. }
  split; [done|]. split.
  - intros Hgt. apply not_true_iff_false. intros Hv.
    destruct (Henv Hv) as (_ & _ & _ & Hle).
    apply FloatOrder.ltb_not_leb in Hgt. congruence.
  - repeat split.
    + eexists "bali_nt", _. split; [do 3 right; left | reflexivity].
    + eexists "sumatera", _. split; [left | reflexivity].
    + eexists "sumatera", _. split; [left | reflexivity].
    + eexists "sulawesi", _. split; [do 4 right; left | reflexivity].
Qed.

Lemma accepted_region_envelope_witness :
  ((-9.5 <=? -6.2)%float = true ∧ (-6.2 <=? 5.5)%float = true ∧
   (95.0 <=? 106.8)%float = true ∧ (106.8 <=? 125.0)%float = true) ∧
  validate_indonesia_strict (-3.7) 128.2 = false.
Proof.
  split.
  - apply (proj1 (accepted_region_envelope (-6.2) 106.8)). reflexivity.
  - apply (proj1 (proj2 (accepted_region_envelope (-3.7) 128.2))). reflexivity.
Defined.


(** ** Running statements *)

Lemma returns_ret {A} (a : A) : returns (mret a) a.
Proof. intros log. exists []. by rewrite app_nil_r. Qed.

Lemma returns_bind {A B} (m : St A) (k : A → St B) a b :
  returns m a → returns (k a) b → returns (m ≫= k) b.
Proof.
  intros Hm Hk log. destruct (Hm log) as [more1 H1].
  destruct (Hk (log ++ more1)) as [more2 H2]. exists (more1 ++ more2).
  unfold mbind, St_bind. by rewrite H1, H2, app_assoc.
Qed.

Lemma returns_say lv dataset t : returns (say lv dataset t) ().
Proof. intros log. by eexists. Qed.

Lemma returns_when cond body : returns body () → returns (when cond body) ().
Proof. destruct cond; [done | intros _; apply returns_ret]. Qed.

Lemma returns_for_each {A} (xs : list A) body :
  (∀ x, returns (body x) ()) → returns (for_each xs body) ().
Proof.
  intros Hbody. induction xs as [|x rest IH]; [apply returns_ret|].
  simpl. by eapply returns_bind.
Qed.

Create HintDb st.
#[local] Hint Resolve returns_ret returns_say returns_when returns_for_each : st.

Ltac returns_step :=
  first [ eapply returns_bind; [solve [eauto with st]|] | solve [eauto with st] ].

(** ** Frames *)

Lemma mask_rows_fmap df (f : row → bool) :
  mask_rows df (f <$> rows df) = select f df.
Proof.
  unfold mask_rows, select. f_equal.
  induction (rows df) as [|r rest IH]; [done|].
  csimpl. destruct (f r); csimpl; by rewrite IH.
Qed.

Lemma select_all df (f : row → bool) :
  (∀ r, r ∈ rows df → f r = true) → select f df = df.
Proof.
  intros Hall. destruct df as [cols rs]. unfold select. simpl in *. f_equal.
  induction rs as [|r rest IH]; [done|]. simpl.
  rewrite Hall by left. f_equal. apply IH. intros r' Hr'. apply Hall. by right.
Qed.

Lemma elem_of_select df (f : row → bool) r :
  r ∈ rows (select f df) ↔ r ∈ rows df ∧ f r = true.
Proof.
  unfold select. simpl. rewrite !list_elem_of_In, List.filter_In. done.
Qed.

Lemma empty_no_rows df col : empty df = true → col ∈ columns df → rows df = [].
Proof.
  unfold empty. destruct (rows df); [done|].
  destruct (columns df); [|done]. intros _ Hcol. by apply elem_of_nil in Hcol.
Qed.

Lemma filter_implied {A} (p q : A → bool) l :
  (∀ x, x ∈ l → q x = true → p x = true) →
  List.filter q (List.filter p l) = List.filter q l.
Proof.
  induction l as [|x l IH]; [done|]. intros Himp. simpl.
  assert (IH' : List.filter q (List.filter p l) = List.filter q l).
  { apply IH. intros y Hy. apply Himp. by right. }
  destruct (p x) eqn:Hp; simpl.
  - by rewrite IH'.
  - destruct (q x) eqn:Hq; [|done].
    rewrite (Himp x) in Hp; [done | left | done].
Qed.

(** ** The coordinate cleaner *)

Lemma cell_at_insert r col v : cell_at (<[col := v]> r) col = v.
Proof. unfold cell_at. by rewrite lookup_insert_eq. Qed.

Lemma cell_at_insert_ne r col col' v :
  col ≠ col' → cell_at (<[col := v]> r) col' = cell_at r col'.
Proof. intros Hne. unfold cell_at. by rewrite lookup_insert_ne. Qed.

Lemma to_numeric_idemp `{Pandas} c : to_numeric (to_numeric c) = to_numeric c.
Proof. by destruct c. Qed.

Lemma coerce_row_lat `{Pandas} lat_col lon_col r :
  cell_at (coerce_row lat_col lon_col r) lat_col = to_numeric (cell_at r lat_col).
Proof.
  unfold coerce_row. destruct (decide (lon_col = lat_col)) as [->|Hne].
  - by rewrite !cell_at_insert, to_numeric_idemp.
  - by rewrite cell_at_insert_ne, cell_at_insert.
Qed.

Lemma coerce_row_lon `{Pandas} lat_col lon_col r :
  cell_at (coerce_row lat_col lon_col r) lon_col = to_numeric (cell_at r lon_col).
Proof.
  unfold coerce_row. rewrite cell_at_insert.
  destruct (decide (lat_col = lon_col)) as [->|Hne].
  - by rewrite cell_at_insert, to_numeric_idemp.
  - by rewrite cell_at_insert_ne.
Qed.

(** The validator rejects NaN, so a row it accepts has both coordinates. *)
Lemma valid_number_notna c : isna (number c) = false → cell_isna c = false.
Proof. by destruct c. Qed.

Lemma valid_to_numeric_notna `{Pandas} c :
  isna (number (to_numeric c)) = false → cell_isna c = false.
Proof. by destruct c. Qed.

Lemma row_valid_notna lat_col lon_col r :
  row_valid lat_col lon_col r = true →
  forallb (λ col, negb (cell_isna (cell_at r col))) [lat_col; lon_col] = true.
Proof.
  unfold row_valid. rewrite validate_accepts. intros (Hlat & Hlon & _).
  simpl. by rewrite !valid_number_notna.
Qed.

Lemma row_valid_coerce_notna `{Pandas} lat_col lon_col r :
  row_valid lat_col lon_col (coerce_row lat_col lon_col r) = true →
  forallb (λ col, negb (cell_isna (cell_at r col))) [lat_col; lon_col] = true.
Proof.
  unfold row_valid. rewrite validate_accepts, coerce_row_lat, coerce_row_lon.
  intros (Hlat & Hlon & _). simpl. by rewrite !valid_to_numeric_notna.
Qed.

Lemma describe_numeric df col :
  col ∈ columns df → (∀ r, r ∈ rows df → is_text (cell_at r col) = false) →
  returns (describe df col) true.
Proof.
  intros Hcol Hnum log. exists []. rewrite app_nil_r.
  unfold describe, column, mbind, St_bind. rewrite bool_decide_true by done.
  simpl. replace (forallb _ _) with true; [done|].
  symmetry. apply forallb_forall. intros c Hc.
  apply List.in_map_iff in Hc as (r & <- & Hr). apply list_elem_of_In, Hnum in Hr.
  by destruct (cell_at r col).
Qed.

Lemma detect_and_fix_returns df lat_col lon_col dataset_name :
  lat_col ∈ columns df → lon_col ∈ columns df →
  (∀ r, r ∈ rows df → is_text (cell_at r lat_col) = false) →
  (∀ r, r ∈ rows df → is_text (cell_at r lon_col) = false) →
  returns (detect_and_fix_coordinate_issues df lat_col lon_col dataset_name)
    (select (row_valid lat_col lon_col) df).
Proof.
  intros Hlat Hlon Hnlat Hnlon. unfold detect_and_fix_coordinate_issues.
  destruct (empty df) eqn:Hempty.
  - rewrite select_all; [apply returns_ret|].
    rewrite (empty_no_rows df lat_col) by done. intros r Hr. by apply elem_of_nil in Hr.
  - cbv zeta. unfold apply_rows. rewrite !mask_rows_fmap.
    eapply returns_bind; [apply returns_say|].
    eapply returns_bind; [by apply describe_numeric|].
    eapply returns_bind; [by apply describe_numeric|].
    unfold min_max.
    repeat returns_step.
    eapply returns_bind.
    { apply returns_when. eapply returns_bind; [apply returns_say|].
      apply returns_for_each. intros r. apply returns_say. }
    repeat returns_step.
Qed.

Lemma rows_dropna subset df :
  rows (dropna subset df) =
  List.filter (λ r, forallb (λ col, negb (cell_isna (cell_at r col))) subset) (rows df).
Proof. unfold dropna, apply_rows. by rewrite mask_rows_fmap. Qed.

Lemma empty_rows df : columns df ≠ [] → empty df = true → rows df = [].
Proof. unfold empty. destruct (rows df), (columns df); done. Qed.

(** The cleaner, when both columns exist: the frame of the coerced rows that
    the region validator accepts. *)
Lemma clean_and_validate_returns `{Pandas} df lat_col lon_col dataset_name :
  lat_col ∈ columns df → lon_col ∈ columns df →
  returns (clean_and_validate_coordinates_strict df lat_col lon_col dataset_name)
    (mkFrame (columns df)
       (List.filter (row_valid lat_col lon_col)
          (coerce_row lat_col lon_col <$> rows df))).
Proof.
  intros Hlat Hlon.
  assert (Hcols : columns df ≠ []).
  { intros Hnil. rewrite Hnil in Hlat. by apply elem_of_nil in Hlat. }
  set (notna := λ r : row, forallb (λ col, negb (cell_isna (cell_at r col))) [lat_col; lon_col]).
  assert (Hfirst : List.filter (row_valid lat_col lon_col)
            (coerce_row lat_col lon_col <$> List.filter notna (rows df)) =
          List.filter (row_valid lat_col lon_col) (coerce_row lat_col lon_col <$> rows df)).
  { induction (rows df) as [|r rest IH]; [done|]. simpl.
    destruct (notna r) eqn:Hr; csimpl; rewrite IH; [done|].
    destruct (row_valid _ _ (coerce_row _ _ r)) eqn:Hv; [|done].
    apply row_valid_coerce_notna in Hv. unfold notna in Hr. congruence. }
  unfold clean_and_validate_coordinates_strict.
  destruct (empty df) eqn:Hempty.
  { apply empty_rows in Hempty as Hrows; [|done].
    destruct df as [cols rs]. simpl in *. subst rs.
    eapply returns_bind; [apply returns_say | apply returns_ret]. }
  rewrite !bool_decide_true by done. cbn [negb orb]. cbv zeta.
  set (df1 := dropna [lat_col; lon_col] df).
  set (df2 := assign lon_col to_numeric (assign lat_col to_numeric df1)).
  set (df3 := dropna [lat_col; lon_col] df2).
  assert (Hrows1 : rows df1 = List.filter notna (rows df)) by apply rows_dropna.
  assert (Hrows2 : rows df2 = coerce_row lat_col lon_col <$> rows df1).
  { unfold df2, assign. simpl. by rewrite <- list_fmap_compose. }
  assert (Hrows3 : rows df3 = List.filter notna (rows df2)) by apply rows_dropna.
  assert (Hcols1 : columns df1 = columns df) by done.
  assert (Hcols3 : columns df3 = columns df) by done.
  clearbody df1 df2 df3.
  assert (Hlast : List.filter (row_valid lat_col lon_col) (rows df3) =
          List.filter (row_valid lat_col lon_col) (coerce_row lat_col lon_col <$> rows df)).
  { rewrite Hrows3, filter_implied, Hrows2, Hrows1; [done|].
    intros r _. apply row_valid_notna. }
  destruct (empty df1) eqn:Hempty1.
  { apply empty_rows in Hempty1 as Hnone; [|congruence].
    rewrite <- Hfirst, <- Hrows1, Hnone, <- Hcols1.
    clear Hrows1. destruct df1 as [cols1 rs1]. simpl in *. subst rs1.
    eapply returns_bind; [apply returns_say | apply returns_ret]. }
  destruct (empty df3) eqn:Hempty3.
  { apply empty_rows in Hempty3 as Hnone; [|congruence].
    rewrite <- Hlast, Hnone, <- Hcols3.
    clear Hrows3. destruct df3 as [cols3 rs3]. simpl in *. subst rs3.
    eapply returns_bind; [apply returns_say | apply returns_ret]. }
  eapply returns_bind; [apply returns_say|].
  rewrite <- Hlast, <- Hcols3.
  apply detect_and_fix_returns; try congruence.
  - intros r Hr. rewrite Hrows3 in Hr.
    apply list_elem_of_In, List.filter_In in Hr as [Hr _].
    rewrite Hrows2 in Hr. apply List.in_map_iff in Hr as (r0 & <- & _).
    rewrite coerce_row_lat. by destruct (cell_at r0 lat_col).
  - intros r Hr. rewrite Hrows3 in Hr.
    apply list_elem_of_In, List.filter_In in Hr as [Hr _].
    rewrite Hrows2 in Hr. apply List.in_map_iff in Hr as (r0 & <- & _).
    rewrite coerce_row_lon. by destruct (cell_at r0 lon_col).
Qed.

(** ** The messages of the cleaner *)

Lemma describe_numeric_run df col log :
  col ∈ columns df → (∀ r, r ∈ rows df → is_text (cell_at r col) = false) →
  describe df col log = (Returned true, log).
Proof.
  intros Hcol Hnum.
  destruct (describe_numeric df col Hcol Hnum log) as [more Hrun].
  unfold describe, column, mbind, St_bind in *.
  rewrite bool_decide_true in * by done. simpl in *.
  by injection Hrun as -> _.
Qed.

Lemma for_each_say {A} (xs : list A) lv dataset (f : A → text) log :
  for_each xs (λ x, say lv dataset (f x)) log =
  (Returned (), log ++ ((λ x, mkMsg lv dataset (f x)) <$> xs)).
Proof.
  revert log. induction xs as [|x xs IH]; intros log; simpl.
  - by rewrite app_nil_r.
  - unfold mbind, St_bind, say at 1. by rewrite IH, <- app_assoc.
Qed.

Lemma bind_run {A B} (m : St A) (k : A → St B) log a log' :
  m log = (Returned a, log') → (m ≫= k) log = k a log'.
Proof. intros Hrun. unfold mbind, St_bind. by rewrite Hrun. Qed.

Lemma when_say cond lv dataset t log :
  when cond (say lv dataset t) log =
  (Returned (), log ++ if cond then [mkMsg lv dataset t] else []).
Proof. destruct cond; [done|]. simpl. by rewrite app_nil_r. Qed.

Lemma when_say_samples {A} cond lv dataset t (xs : list A) lv' (f : A → text) log :
  when cond (say lv dataset t ;; for_each xs (λ x, say lv' dataset (f x))) log =
  (Returned (),
   log ++ if cond
          then mkMsg lv dataset t :: ((λ x, mkMsg lv' dataset (f x)) <$> xs)
          else []).
Proof.
  destruct cond; simpl; [|by rewrite app_nil_r].
  erewrite bind_run by reflexivity. by rewrite for_each_say, <- app_assoc.
Qed.

(** The messages of the function on a table with rows whose two coordinate
    columns hold numbers. *)
Lemma detect_and_fix_messages df lat_col lon_col dataset_name log :
  empty df = false → lat_col ∈ columns df → lon_col ∈ columns df →
  (∀ r, r ∈ rows df → is_text (cell_at r lat_col) = false) →
  (∀ r, r ∈ rows df → is_text (cell_at r lon_col) = false) →
  detect_and_fix_coordinate_issues df lat_col lon_col dataset_name log =
    (Returned (select (row_valid lat_col lon_col) df),
     log ++ detect_messages df lat_col lon_col dataset_name).
Proof.
  intros Hempty Hlat Hlon Hnlat Hnlon. unfold detect_messages. cbv zeta.
  unfold detect_and_fix_coordinate_issues. rewrite Hempty. cbv zeta.
  unfold apply_rows. rewrite !mask_rows_fmap.
  erewrite bind_run by reflexivity.
  erewrite bind_run by (by apply describe_numeric_run).
  erewrite bind_run by (by apply describe_numeric_run).
  erewrite bind_run by reflexivity.
  erewrite bind_run by reflexivity.
  erewrite bind_run by reflexivity.
  erewrite bind_run by reflexivity.
  erewrite bind_run by apply when_say.
  erewrite bind_run by apply when_say_samples.
  erewrite bind_run by apply when_say.
  unfold mret, St_ret. f_equal. rewrite <- !app_assoc. reflexivity.
Qed.






Lemma zero_below (c z x : float) mc ec s :
  Prim2SF c = S754_finite false mc ec → Prim2SF z = S754_zero s →
  (x =? z)%float = true → (c <=? x)%float = false.
Proof.
  intros Hc Hz. rewrite FloatAxioms.eqb_spec, leb_spec, Hc, Hz.
  unfold SFeqb, SFleb, SFcompare.
  by destruct (Prim2SF x) as [[]|[]| |[] m e].
Qed.

Lemma zero_below_95 (x : float) : (x =? 0)%float = true → (95 <=? x)%float = false.
Proof. eapply (zero_below 95 0 x); vm_compute; reflexivity. Qed.

Lemma accepted_longitude lat lon :
  validate_indonesia_strict lat lon = true → (95 <=? lon)%float = true.
Proof.
  rewrite validate_accepts, any_inclusion_box.
  intros (_ & _ & _ & _ & _ & region & b & Hb & _ & _ & Hlon & _).
  each_entry Hb; cbn [min_lon] in Hlon;
    (eapply FloatOrder.leb_trans; [|exact Hlon]; reflexivity).
Qed.

(** ** Claims on the coordinate cleaner *)

(** C8. When the latitude or the longitude label is absent from the table,
    the cleaner raises nothing and returns an empty frame, with the reason
    written as an error message when the table had rows; whatever statement
    follows it in the pipeline runs as it would have. *)
Theorem missing_column_contained `{Pandas} (df : DataFrame)
    (lat_col lon_col dataset_name : string) :
  lat_col ∉ columns df ∨ lon_col ∉ columns df →
  (∀ log, ∃ result more,
     clean_and_validate_coordinates_strict df lat_col lon_col dataset_name log =
       (Returned result, log ++ more) ∧
     empty result = true ∧
     (empty df = false →
        result = pd_DataFrame ∧
        more = [mkMsg st_error dataset_name (ColumnsNotFound lat_col lon_col)])) ∧
  (∀ A (next : St A) (a : A), returns next a →
     returns (clean_and_validate_coordinates_strict df lat_col lon_col dataset_name ;; next) a).
Proof.
  intros Habsent.
  assert (Hres : ∀ log, ∃ result more,
     clean_and_validate_coordinates_strict df lat_col lon_col dataset_name log =
       (Returned result, log ++ more) ∧
     empty result = true ∧
     (empty df = false →
        result = pd_DataFrame ∧
        more = [mkMsg st_error dataset_name (ColumnsNotFound lat_col lon_col)])).
  { intros log. unfold clean_and_validate_coordinates_strict.
    destruct (empty df) eqn:Hempty.
    - exists df, [mkMsg st_warning dataset_name FrameEmpty]. by repeat split.
    - replace (negb (bool_decide (lat_col ∈ columns df)) ||
               negb (bool_decide (lon_col ∈ columns df))) with true.
      + exists pd_DataFrame, [mkMsg st_error dataset_name (ColumnsNotFound lat_col lon_col)].
        by repeat split.
      + symmetry. apply orb_true_iff.
        destruct Habsent as [Hlat | Hlon]; [left | right];
          by rewrite bool_decide_false. }
  split; [done|].
  intros A next a Hnext log.
  destruct (Hres log) as (result & more & Hrun & _).
  destruct (Hnext (log ++ more)) as [more' Hrun'].
  exists (more ++ more'). unfold mbind, St_bind. by rewrite Hrun, Hrun', app_assoc.
Qed.

Lemma missing_column_contained_witness :
  run (clean_and_validate_coordinates_strict (H := ascii_text)
         (mkFrame ["title"; "latitude"]
            [{[ "title" := Str "Kopi"; "latitude" := Num (-6.2) ]}])
         "latitude" "longitude" "Scraping Data") =
  (Returned pd_DataFrame,
   [mkMsg st_error "Scraping Data" (ColumnsNotFound "latitude" "longitude")]).
Proof.
  destruct (proj1 (missing_column_contained (H := ascii_text)
    (mkFrame ["title"; "latitude"]
       [{[ "title" := Str "Kopi"; "latitude" := Num (-6.2) ]}])
    "latitude" "longitude" "Scraping Data"
    ltac:(right; apply (bool_decide_unpack _); vm_compute; exact I)) [])
    as (result & more & Hrun & _ & Hshape).
  destruct (Hshape eq_refl) as [-> ->]. exact Hrun.
Defined.





(** ** The matched-name filter *)

Lemma select_ext df (f g : row → bool) :
  (∀ r, r ∈ rows df → f r = g r) → select f df = select g df.
Proof.
  intros Hfg. unfold select. f_equal.
  induction (rows df) as [|r rest IH]; [done|]. simpl.
  rewrite (Hfg r) by left. rewrite IH; [done|].
  intros r' Hr'. apply Hfg. by right.
Qed.

Lemma name_cell_present df r :
  "nama_restoran" ∈ columns df → name_cell df r = cell_at r "nama_restoran".
Proof. intros Hcol. unfold name_cell. by rewrite bool_decide_true. Qed.

Lemma name_cell_absent df r : "nama_restoran" ∉ columns df → name_cell df r = Null.
Proof. intros Hcol. unfold name_cell. by rewrite bool_decide_false. Qed.

Lemma names_no_text df :
  (∀ r, r ∈ rows df → is_text (name_cell df r) = false) → names df = [].
Proof.
  unfold names. induction (rows df) as [|r rest IH]; [done|].
  intros Hno. simpl. specialize (Hno r (list_elem_of_here _ _)) as Hr.
  destruct (name_cell df r); try done; apply IH; intros r' Hr'; apply Hno; by right.
Qed.

Lemma names_empty df : empty df = true → names df = [].
Proof.
  intros Hempty. apply names_no_text. intros r Hr.
  destruct (decide ("nama_restoran" ∈ columns df)) as [Hcol | Hcol].
  - rewrite (empty_no_rows df _ Hempty Hcol) in Hr. by apply elem_of_nil in Hr.
  - by rewrite name_cell_absent.
Qed.

(** With no text name on one of the two sides, nothing is matched. *)
Lemma unmatched_no_names_l `{Pandas} matched df :
  names matched = [] → unmatched matched df = df.
Proof.
  intros Hnone. apply select_all. intros r _.
  unfold name_in_matched, normalized_names. rewrite Hnone.
  by destruct (name_cell df r).
Qed.

Lemma unmatched_no_names_r `{Pandas} matched df :
  (∀ r, r ∈ rows df → is_text (name_cell df r) = false) → unmatched matched df = df.
Proof.
  intros Hnone. apply select_all. intros r Hr. apply Hnone in Hr.
  unfold name_in_matched. by destruct (name_cell df r).
Qed.

Lemma existsb_is_text_false (cells : list cell) :
  existsb is_text cells = false → ∀ c, c ∈ cells → is_text c = false.
Proof.
  intros Hno c Hc. apply not_true_iff_false. intros Htext.
  apply not_true_iff_false in Hno. apply Hno, existsb_exists.
  exists c. by rewrite <- list_elem_of_In.
Qed.

(** The set built from the uppercased name column is the set of normalized
    names. *)
Lemma name_set_upper `{Pandas} df :
  "nama_restoran" ∈ columns df →
  name_set ((λ c, match c with Str s => Str (upper s) | _ => Null end) <$>
            ((λ r, cell_at r "nama_restoran") <$> rows df)) =
  normalized_names df.
Proof.
  intros Hcol. unfold name_set, normalized_names, names. f_equal.
  induction (rows df) as [|r rest IH]; [done|]. csimpl.
  rewrite name_cell_present by done.
  destruct (cell_at r "nama_restoran"); csimpl; by rewrite IH.
Qed.

Lemma str_upper_cases `{Pandas} df col log :
  match str_upper df col log with
  | (Returned cells, log') =>
      log' = log ∧ col ∈ columns df ∧
      cells = (λ c, match c with Str s => Str (upper s) | _ => Null end) <$>
              ((λ r, cell_at r col) <$> rows df)
  | (Raised e, log') =>
      log' = log ∧
      (col ∉ columns df ∨ ∀ r, r ∈ rows df → is_text (cell_at r col) = false)
  end.
Proof.
  unfold str_upper, column, mbind, St_bind, raise.
  case_bool_decide as Hcol; simpl; [|by split; [|left]].
  destruct (existsb is_num _ && negb (existsb is_text _)) eqn:Hrefused; simpl; [|done].
  split; [done|]. right. intros r Hr.
  apply andb_true_iff in Hrefused as [_ Hno]. apply negb_true_iff in Hno.
  apply (existsb_is_text_false _ Hno). apply list_elem_of_fmap. by exists r.
Qed.

(** What the block does to one side: it returns the unmatched rows and
    reports how many it dropped, or returns the frame as it is without a
    report, or raises before changing anything, which happens only when
    nothing could have been matched. *)
Lemma filter_matched_outcome `{Pandas} side green_data data log :
  (filter_matched side green_data data log =
     (Returned (unmatched green_data data),
      log ++ [mkMsg st_info side (Filtered (len data - len (unmatched green_data data)))]))
  ∨ (filter_matched side green_data data log = (Returned data, log) ∧
     unmatched green_data data = data)
  ∨ (∃ e, filter_matched side green_data data log = (Raised e, log) ∧
     unmatched green_data data = data).
Proof.
  unfold filter_matched, mbind, St_bind.
  destruct (empty green_data) eqn:Hempty; simpl.
  { right; left. split; [done|]. by apply unmatched_no_names_l, names_empty. }
  pose proof (str_upper_cases green_data "nama_restoran" log) as Hgreen.
  destruct (str_upper green_data "nama_restoran" log) as [[green_names | e] log1].
  2: { destruct Hgreen as [-> Hwhy]. right; right. exists e. split; [done|].
       apply unmatched_no_names_l, names_no_text. intros r Hr.
       destruct Hwhy as [Hcol | Hno]; [by rewrite name_cell_absent|].
       unfold name_cell. case_bool_decide; [by apply Hno | done]. }
  destruct Hgreen as (-> & Hgcol & ->).
  pose proof (str_upper_cases data "nama_restoran" log) as Hdata.
  destruct (str_upper data "nama_restoran" log) as [[data_names | e] log1].
  2: { destruct Hdata as [-> Hwhy]. right; right. exists e. split; [done|].
       apply unmatched_no_names_r. intros r Hr.
       destruct Hwhy as [Hcol | Hno]; [by rewrite name_cell_absent|].
       unfold name_cell. case_bool_decide; [by apply Hno | done]. }
  destruct Hdata as (-> & Hdcol & ->). left.
  rewrite name_set_upper by done. rewrite <- !list_fmap_compose, mask_rows_fmap.
  rewrite (select_ext data _ (λ r, negb (name_in_matched green_data data r))).
  - done.
  - intros r _. simpl. unfold name_in_matched. rewrite name_cell_present by done.
    by destruct (cell_at r "nama_restoran").
Qed.

Lemma filtered_count_app side log more :
  filtered_count side (log ++ more) = (filtered_count side log + filtered_count side more)%Z.
Proof.
  unfold filtered_count. rewrite omap_app, foldr_app.
  generalize (omap (λ m, match msg_text m with
    | Filtered n => if bool_decide (msg_dataset m = side) then Some n else None
    | _ => None end) more).
  intros counted. induction (omap _ log) as [|n rest IH]; simpl; lia.
Qed.

(** One side of the reconciliation: its [try] always returns the unmatched
    rows, and the count reported for that side is the number dropped. *)
Lemma side_outcome `{Pandas} side green_data data log :
  ∃ more,
    filter_side side green_data data log =
      (Returned (unmatched green_data data), log ++ more) ∧
    ∀ side', filtered_count side' more =
      if bool_decide (side = side') then (len data - len (unmatched green_data data))%Z
      else 0%Z.
Proof.
  unfold filter_side. destruct (empty data) eqn:Hempty; simpl.
  { assert (Hsame : unmatched green_data data = data).
    { apply unmatched_no_names_r. intros r Hr.
      destruct (decide ("nama_restoran" ∈ columns data)) as [Hcol | Hcol].
      - rewrite (empty_no_rows data _ Hempty Hcol) in Hr. by apply elem_of_nil in Hr.
      - by rewrite name_cell_absent. }
    exists []. rewrite app_nil_r, Hsame. split; [done|].
    intros side'. unfold filtered_count. simpl. case_bool_decide; lia. }
  unfold try_except.
  destruct (filter_matched_outcome side green_data data log)
    as [Hrun | [[Hrun Hsame] | (e & Hrun & Hsame)]]; rewrite Hrun.
  - eexists. split; [done|]. intros side'. unfold filtered_count. simpl.
    repeat case_bool_decide; simpl; congruence || lia.
  - exists []. rewrite app_nil_r, Hsame. split; [done|].
    intros side'. unfold filtered_count. simpl. case_bool_decide; lia.
  - eexists. rewrite Hsame. split; [done|].
    intros side'. unfold filtered_count. simpl. case_bool_decide; lia.
Qed.

(** The reconciliation step returns the matched frame as it is and the
    unmatched rows of the two other frames; the counts it reports are the
    numbers of rows it dropped. *)
Lemma reconcile_outcome `{Pandas} green_data orange_data blue_data :
  ∃ log,
    run (reconcile green_data orange_data blue_data) =
      (Returned (green_data, unmatched green_data orange_data,
                 unmatched green_data blue_data), log) ∧
    filtered_count "ESB" log =
      (len orange_data - len (unmatched green_data orange_data))%Z ∧
    filtered_count "Scraping" log =
      (len blue_data - len (unmatched green_data blue_data))%Z.
Proof.
  unfold run, reconcile.
  destruct (side_outcome "ESB" green_data orange_data []) as (more1 & Hrun1 & Hcount1).
  destruct (side_outcome "Scraping" green_data blue_data ([] ++ more1))
    as (more2 & Hrun2 & Hcount2).
  exists (([] ++ more1) ++ more2).
  unfold mbind at 1, St_bind at 1. rewrite Hrun1.
  unfold mbind at 1, St_bind at 1. rewrite Hrun2.
  split; [done|]. rewrite !filtered_count_app, !Hcount1, !Hcount2.
  split; repeat case_bool_decide; try done; unfold filtered_count; simpl; lia.
Qed.

Lemma elem_of_names df s :
  s ∈ names df ↔ ∃ r, r ∈ rows df ∧ name_cell df r = Str s.
Proof.
  unfold names. rewrite list_elem_of_omap. split.
  - intros (r & Hr & Hname). exists r. split; [done|].
    destruct (name_cell df r); congruence.
  - intros (r & Hr & Hname). exists r. by rewrite Hname.
Qed.

(** Matching is equality of the uppercased names. *)
Lemma name_in_matched_iff `{Pandas} matched df r :
  name_in_matched matched df r = true ↔
  ∃ s t, name_cell df r = Str s ∧ t ∈ names matched ∧ upper t = upper s.
Proof.
  unfold name_in_matched, normalized_names. split.
  - destruct (name_cell df r) as [| |s]; try done.
    rewrite bool_decide_eq_true, elem_of_list_to_set, list_elem_of_fmap.
    intros (t & Heq & Ht). by exists s, t.
  - intros (s & t & -> & Ht & Heq).
    rewrite bool_decide_eq_true, elem_of_list_to_set, list_elem_of_fmap.
    by exists t.
Qed.

Lemma name_cell_unmatched `{Pandas} matched df r :
  name_cell (unmatched matched df) r = name_cell df r.
Proof. done. Qed.

Lemma elem_of_unmatched `{Pandas} matched df r :
  r ∈ rows (unmatched matched df) ↔
  r ∈ rows df ∧ name_in_matched matched df r = false.
Proof. unfold unmatched. by rewrite elem_of_select, negb_true_iff. Qed.

Lemma unmatched_disjoint `{Pandas} matched df :
  normalized_names matched ## normalized_names (unmatched matched df).
Proof.
  intros x Hmatched Hleft.
  unfold normalized_names in Hleft.
  apply elem_of_list_to_set, list_elem_of_fmap in Hleft as (s & -> & Hs).
  apply elem_of_names in Hs as (r & Hr & Hname).
  apply elem_of_unmatched in Hr as [_ Hnot].
  rewrite name_cell_unmatched in Hname.
  unfold name_in_matched in Hnot. rewrite Hname in Hnot.
  by apply bool_decide_eq_false in Hnot.
Qed.

Lemma unmatched_idemp `{Pandas} matched df :
  unmatched matched (unmatched matched df) = unmatched matched df.
Proof.
  unfold unmatched at 1. apply select_all. intros r Hr.
  apply elem_of_unmatched in Hr as [_ Hnot].
  unfold name_in_matched in *. rewrite name_cell_unmatched. by rewrite Hnot.
Qed.

Lemma filter_split_length {A} (f : A → bool) l :
  (length (List.filter f l) + length (List.filter (λ x, negb (f x)) l) = length l)%nat.
Proof.
  induction l as [|x l IH]; [done|]. simpl. destruct (f x); simpl; lia.
Qed.

Lemma len_unmatched `{Pandas} matched df :
  (len df - len (unmatched matched df))%Z =
  Z.of_nat (length (List.filter (name_in_matched matched df) (rows df))).
Proof.
  unfold len, unmatched, select. simpl.
  pose proof (filter_split_length (name_in_matched matched df) (rows df)). lia.
Qed.

Lemma missing_not_matched `{Pandas} matched df r :
  name_missing df r = true → name_in_matched matched df r = false.
Proof.
  unfold name_missing, name_in_matched. by destruct (name_cell df r).
Qed.

(** ** Claims on the reconciliation *)

(** C4. After reconciliation the normalized names of the matched frame are
    disjoint from those left in the ESB frame and from those left in the
    scraping frame. A row is dropped exactly when its name, uppercased,
    equals the uppercased name of a matched row: with the matched name
    "WARUNG PADANG JAYA", the ESB row named "warung padang jaya" is
    dropped. *)
Theorem reconcile_disjoint :
  (∀ (P : Pandas) (green_data orange_data blue_data : DataFrame),
     ∃ orange blue log,
       run (reconcile green_data orange_data blue_data) =
         (Returned (green_data, orange, blue), log) ∧
       normalized_names green_data ## normalized_names orange ∧
       normalized_names green_data ## normalized_names blue ∧
       (∀ r, r ∈ rows orange ↔ r ∈ rows orange_data ∧
          ¬ ∃ s t, name_cell orange_data r = Str s ∧ t ∈ names green_data ∧
                   upper t = upper s) ∧
       (∀ r, r ∈ rows blue ↔ r ∈ rows blue_data ∧
          ¬ ∃ s t, name_cell blue_data r = Str s ∧ t ∈ names green_data ∧
                   upper t = upper s)) ∧
  (let named (s : string) : row := {[ "nama_restoran" := Str s ]} in
   let green_data := mkFrame ["nama_restoran"] [named "WARUNG PADANG JAYA"] in
   let orange_data :=
     mkFrame ["nama_restoran"] [named "warung padang jaya"; named "Sate Khas Senayan"] in
   let blue_data := mkFrame ["nama_restoran"] [named "Warung Padang Jaya 2"] in
   run (reconcile (H := ascii_text) green_data orange_data blue_data) =
     (Returned (green_data,
                mkFrame ["nama_restoran"] [named "Sate Khas Senayan"],
                blue_data),
      [mkMsg st_info "ESB" (Filtered 1); mkMsg st_info "Scraping" (Filtered 0)])).
Proof.
  split; [|vm_compute; reflexivity].
  intros P green_data orange_data blue_data.
  destruct (reconcile_outcome green_data orange_data blue_data) as (log & Hrun & _).
  eexists _, _, log. split; [exact Hrun|].
  split; [apply unmatched_disjoint|]. split; [apply unmatched_disjoint|].
  split; intros r; rewrite elem_of_unmatched, <- name_in_matched_iff;
    by rewrite not_true_iff_false.
Qed.

(** C5. The filtered ESB frame has as many rows as the ESB input minus the
    count reported as removed, and that count is the number of ESB rows whose
    uppercased name is among the uppercased matched names; the same holds
    for the scraping frame. *)
Theorem reconcile_cardinality (P : Pandas) (green_data orange_data blue_data : DataFrame) :
  ∃ orange blue log,
    run (reconcile green_data orange_data blue_data) =
      (Returned (green_data, orange, blue), log) ∧
    (len orange = len orange_data - filtered_count "ESB" log)%Z ∧
    filtered_count "ESB" log =
      Z.of_nat (length (List.filter (name_in_matched green_data orange_data)
                          (rows orange_data))) ∧
    (len blue = len blue_data - filtered_count "Scraping" log)%Z ∧
    filtered_count "Scraping" log =
      Z.of_nat (length (List.filter (name_in_matched green_data blue_data)
                          (rows blue_data))).
Proof.
  destruct (reconcile_outcome green_data orange_data blue_data)
    as (log & Hrun & Hesb & Hscraping).
  eexists _, _, log. split; [exact Hrun|].
  rewrite Hesb, Hscraping, !len_unmatched.
  pose proof (len_unmatched green_data orange_data).
  pose proof (len_unmatched green_data blue_data). lia.
Qed.

(** C6. With an empty matched frame both other frames pass through as they
    are: no row is dropped, no count is reported, and the removed count is 0
    on both sides. *)
Theorem empty_matched_pass_through (P : Pandas)
    (green_data orange_data blue_data : DataFrame) :
  empty green_data = true →
  ∃ log,
    run (reconcile green_data orange_data blue_data) =
      (Returned (green_data, orange_data, blue_data), log) ∧
    log = [] ∧
    filtered_count "ESB" log = 0%Z ∧ filtered_count "Scraping" log = 0%Z.
Proof.
  intros Hempty. exists [].
  unfold run, reconcile, filter_side, try_except, filter_matched, mbind, St_bind.
  rewrite Hempty. by destruct (empty orange_data), (empty blue_data).
Qed.

Lemma empty_matched_pass_through_witness :
  let named (s : string) : row := {[ "nama_restoran" := Str s ]} in
  let orange_data := mkFrame ["nama_restoran"] [named "Bakmi GM - Sunter"] in
  let blue_data := mkFrame ["nama_restoran"] [named "Bakmi GM"] in
  ∃ log,
    run (reconcile (H := ascii_text) (mkFrame ["nama_restoran"] []) orange_data blue_data) =
      (Returned (mkFrame ["nama_restoran"] [], orange_data, blue_data), log) ∧
    log = [] ∧
    filtered_count "ESB" log = 0%Z ∧ filtered_count "Scraping" log = 0%Z.
Proof.
  cbv zeta.
  exact (empty_matched_pass_through ascii_text (mkFrame ["nama_restoran"] [])
           _ _ eq_refl).
Defined.

(** The input that refutes C7 as stated: the first run reports one removed
    ESB row, the run on its outputs reports none. *)
Lemma rerun_counts_differ :
  let named (s : string) : row := {[ "nama_restoran" := Str s ]} in
  let green_data := mkFrame ["nama_restoran"] [named "KOPI KENANGAN"] in
  let orange_data := mkFrame ["nama_restoran"] [named "Kopi Kenangan"] in
  let blue_data := mkFrame ["nama_restoran"] [] in
  ∃ orange blue log1 log2,
    run (reconcile (H := ascii_text) green_data orange_data blue_data) =
      (Returned (green_data, orange, blue), log1) ∧
    run (reconcile (H := ascii_text) green_data orange blue) =
      (Returned (green_data, orange, blue), log2) ∧
    filtered_count "ESB" log1 = 1%Z ∧ filtered_count "ESB" log2 = 0%Z ∧
    filtered_count "ESB" log1 ≠ filtered_count "ESB" log2.
Proof.
  cbv zeta. eexists _, _, _, _.
  split; [vm_compute; reflexivity|]. split; [vm_compute; reflexivity|].
  by vm_compute.
Qed.

(** C7, amended. Running the reconciliation again on its own three outputs
    returns the same three frames, and this second run removes nothing: its
    removed counts are 0 on both sides. *)
Theorem reconcile_rerun (P : Pandas) (green_data orange_data blue_data : DataFrame) :
  ∃ orange blue log1 log2,
    run (reconcile green_data orange_data blue_data) =
      (Returned (green_data, orange, blue), log1) ∧
    run (reconcile green_data orange blue) =
      (Returned (green_data, orange, blue), log2) ∧
    filtered_count "ESB" log2 = 0%Z ∧ filtered_count "Scraping" log2 = 0%Z.
Proof.
  destruct (reconcile_outcome green_data orange_data blue_data) as (log1 & Hrun1 & _).
  destruct (reconcile_outcome green_data (unmatched green_data orange_data)
              (unmatched green_data blue_data)) as (log2 & Hrun2 & Hesb & Hscraping).
  repeat rewrite unmatched_idemp in Hrun2.
  repeat rewrite unmatched_idemp in Hesb.
  repeat rewrite unmatched_idemp in Hscraping.
  eexists _, _, log1, log2. split; [exact Hrun1|]. split; [exact Hrun2|]. lia.
Qed.

(** C9. A row of the ESB or of the scraping frame whose name is missing is
    never dropped by the matched-name filter: the rows with a missing name
    are the same before and after. The set of matched names holds the text
    names only, and a missing value is no member of it, whatever it holds. *)
Theorem missing_name_retained (P : Pandas)
    (green_data orange_data blue_data : DataFrame) :
  ∃ orange blue log,
    run (reconcile green_data orange_data blue_data) =
      (Returned (green_data, orange, blue), log) ∧
    List.filter (name_missing orange_data) (rows orange) =
      List.filter (name_missing orange_data) (rows orange_data) ∧
    List.filter (name_missing blue_data) (rows blue) =
      List.filter (name_missing blue_data) (rows blue_data) ∧
    (∀ r, r ∈ rows orange_data → name_missing orange_data r = true → r ∈ rows orange) ∧
    (∀ r, r ∈ rows blue_data → name_missing blue_data r = true → r ∈ rows blue) ∧
    (∀ cells s, s ∈ name_set cells ↔ Str s ∈ cells) ∧
    (∀ (matched_names : gset string) c, cell_isna c = true → isin matched_names c = false).
Proof.
  destruct (reconcile_outcome green_data orange_data blue_data) as (log & Hrun & _).
  eexists _, _, log. split; [exact Hrun|].
  split; [|split; [|split; [|split; [|split]]]].
  - apply filter_implied. intros r _ Hmissing.
    by rewrite (missing_not_matched green_data).
  - apply filter_implied. intros r _ Hmissing.
    by rewrite (missing_not_matched green_data).
  - intros r Hr Hmissing. apply elem_of_unmatched.
    split; [done | by apply missing_not_matched].
  - intros r Hr Hmissing. apply elem_of_unmatched.
    split; [done | by apply missing_not_matched].
  - intros cells s. unfold name_set.
    rewrite elem_of_list_to_set, list_elem_of_omap. split.
    + intros (c & Hc & Htext). destruct c; try done. congruence.
    + intros Hs. by exists (Str s).
  - intros matched_names c Hc. by destruct c.
Qed.

(** * Further properties of the code *)

(** ** The cleaner as a function of its table *)

Lemma clean_returns_cleaned `{Pandas} df lat_col lon_col dataset_name :
  returns (clean_and_validate_coordinates_strict df lat_col lon_col dataset_name)
    (cleaned lat_col lon_col df).
Proof.
  unfold cleaned.
  destruct (empty df) eqn:Hempty.
  { unfold clean_and_validate_coordinates_strict. rewrite Hempty.
    eapply returns_bind; [apply returns_say | apply returns_ret]. }
  destruct (bool_decide (lat_col ∈ columns df)) eqn:Hlat;
    destruct (bool_decide (lon_col ∈ columns df)) eqn:Hlon; cbn [andb];
    try (unfold clean_and_validate_coordinates_strict; rewrite Hempty, Hlat, Hlon;
         cbn [negb orb];
         eapply returns_bind; [apply returns_say | apply returns_ret]).
  apply bool_decide_eq_true in Hlat, Hlon. by apply clean_and_validate_returns.
Qed.

Lemma returns_unique {A} (m : St A) a b : returns m a → returns m b → a = b.
Proof.
  intros Ha Hb. destruct (Ha []) as [more1 H1], (Hb []) as [more2 H2]. congruence.
Qed.

Lemma cell_at_lookup (r : row) col : is_Some (r !! col) → r !! col = Some (cell_at r col).
Proof. intros [c Hc]. unfold cell_at. by rewrite Hc. Qed.

Lemma coerce_row_idemp `{Pandas} lat_col lon_col r :
  coerce_row lat_col lon_col (coerce_row lat_col lon_col r) =
  coerce_row lat_col lon_col r.
Proof.
  set (r2 := coerce_row lat_col lon_col r).
  assert (Hlat : r2 !! lat_col = Some (to_numeric (cell_at r2 lat_col))).
  { rewrite cell_at_lookup.
    - f_equal. unfold r2. by rewrite coerce_row_lat, to_numeric_idemp.
    - unfold r2, coerce_row. destruct (decide (lon_col = lat_col)) as [->|Hne].
      + rewrite lookup_insert_eq. by eexists.
      + rewrite lookup_insert_ne, lookup_insert_eq by done. by eexists. }
  assert (Hlon : r2 !! lon_col = Some (to_numeric (cell_at r2 lon_col))).
  { rewrite cell_at_lookup.
    - f_equal. unfold r2. by rewrite coerce_row_lon, to_numeric_idemp.
    - unfold r2, coerce_row. rewrite lookup_insert_eq. by eexists. }
  unfold coerce_row at 1. fold r2.
  rewrite (insert_id r2 lat_col) by done. by rewrite insert_id.
Qed.

Lemma filter_fixed {A} (f : A → A) (p : A → bool) l :
  (∀ x, x ∈ l → f x = x) →
  List.filter p (f <$> List.filter p l) = List.filter p l.
Proof.
  intros Hfix. induction l as [|x l IH]; [done|]. simpl.
  assert (IH' : List.filter p (f <$> List.filter p l) = List.filter p l).
  { apply IH. intros y Hy. apply Hfix. by right. }
  destruct (p x) eqn:Hp; [|done]. csimpl.
  rewrite (Hfix x) by left. simpl. by rewrite Hp, IH'.
Qed.

Lemma cleaned_idemp `{Pandas} lat_col lon_col df :
  cleaned lat_col lon_col (cleaned lat_col lon_col df) = cleaned lat_col lon_col df.
Proof.
  assert (Hcases : cleaned lat_col lon_col df = df ∧ empty df = true ∨
                   cleaned lat_col lon_col df = pd_DataFrame ∨
                   cleaned lat_col lon_col df =
                     mkFrame (columns df)
                       (List.filter (row_valid lat_col lon_col)
                          (coerce_row lat_col lon_col <$> rows df)) ∧
                   bool_decide (lat_col ∈ columns df) &&
                   bool_decide (lon_col ∈ columns df) = true).
  { unfold cleaned. destruct (empty df); [by left|].
    destruct (_ && _); [by right; right | by right; left]. }
  destruct Hcases as [[-> Hempty] | [-> | [-> Hcols]]].
  - unfold cleaned. by rewrite Hempty.
  - done.
  - unfold cleaned. cbn [columns rows]. rewrite Hcols.
    destruct (empty (mkFrame _ _)); [done|]. f_equal.
    apply filter_fixed. intros r Hr.
    apply list_elem_of_fmap in Hr as (r0 & -> & _). apply coerce_row_idemp.
Qed.

(** X1. The cleaner never hands over a row the region validator rejects: when
    the frame it returns is not empty, it has the columns of the table, and
    each of its rows is a coerced row of the table whose coordinates the
    validator accepts. It never returns more rows than it was given. *)
Theorem cleaner_output_valid `{Pandas} (df : DataFrame)
    (lat_col lon_col dataset_name : string) :
  ∃ result,
    returns (clean_and_validate_coordinates_strict df lat_col lon_col dataset_name)
      result ∧
    (len result <= len df)%Z ∧
    (empty result = false →
       columns result = columns df ∧
       ∀ r, r ∈ rows result →
         row_valid lat_col lon_col r = true ∧
         ∃ r0, r0 ∈ rows df ∧ r = coerce_row lat_col lon_col r0).
Proof.
  exists (cleaned lat_col lon_col df). split; [apply clean_returns_cleaned|].
  unfold cleaned. destruct (empty df) eqn:Hempty.
  { split; [lia | congruence]. }
  destruct (bool_decide (lat_col ∈ columns df) && bool_decide (lon_col ∈ columns df)).
  - split.
    + unfold len. simpl. apply inj_le.
      etrans; [apply List.filter_length_le|]. by rewrite length_fmap.
    + intros _. split; [done|]. intros r Hr. simpl in Hr.
      apply list_elem_of_In, List.filter_In in Hr as [Hr Hvalid].
      split; [done|]. apply List.in_map_iff in Hr as (r0 & <- & Hr0).
      exists r0. by rewrite list_elem_of_In.
  - split; [unfold len; simpl; lia | done].
Qed.

(** X2. Cleaning is idempotent: the cleaner returns its own result unchanged
    when it is given that result as its table. *)
Theorem cleaner_idempotent `{Pandas} (df : DataFrame)
    (lat_col lon_col dataset_name : string) :
  ∃ result,
    returns (clean_and_validate_coordinates_strict df lat_col lon_col dataset_name)
      result ∧
    returns (clean_and_validate_coordinates_strict result lat_col lon_col dataset_name)
      result.
Proof.
  exists (cleaned lat_col lon_col df). split; [apply clean_returns_cleaned|].
  rewrite <- (cleaned_idemp lat_col lon_col df) at 2. apply clean_returns_cleaned.
Qed.

(** ** The validator and the flags of the cleaner *)

(** An absolute value above a positive bound excludes the closed range
    between the bound and its opposite. *)
Lemma abs_above (c x : float) mc ec :
  Prim2SF c = S754_finite false mc ec →
  (c <? abs x)%float = true → ((- c <=? x) && (x <=? c))%float = false.
Proof.
  intros Hc. rewrite ltb_spec, abs_spec, !leb_spec, opp_spec, Hc.
  unfold SFltb, SFleb, SFabs, SFopp, SFcompare.
  destruct (Prim2SF x) as [[]|[]| |[] m e]; try done;
    change (Pos.compare_cont Eq) with Pos.compare;
    intros Hgt; FloatOrder.cmp_cases; simpl in *; try done; try lia.
Qed.

Lemma abs_above_90 (x : float) :
  (90 <? abs x)%float = true → ((-90 <=? x) && (x <=? 90))%float = false.
Proof. eapply (abs_above 90 x). vm_compute. reflexivity. Qed.

Lemma abs_above_180 (x : float) :
  (180 <? abs x)%float = true → ((-180 <=? x) && (x <=? 180))%float = false.
Proof. eapply (abs_above 180 x). vm_compute. reflexivity. Qed.

(** A zero is below every positive number. *)
(** X3. Among the points the validator accepts, the ones the cleaner flags as
    clearly wrong are exactly those whose latitude is zero: a point flagged
    for a coordinate out of range or for a zero longitude is always
    removed. *)
Theorem flagged_survivors_have_zero_latitude (lat lon : float) :
  validate_indonesia_strict lat lon = true →
  clearly_wrong_mask lat lon = (lat =? 0)%float.
Proof.
  intros Hvalid. pose proof (accepted_longitude lat lon Hvalid) as Hlon.
  apply validate_accepts in Hvalid as (_ & _ & [Hlat1 Hlat2] & [Hlon1 Hlon2] & _).
  unfold clearly_wrong_mask.
  destruct (90 <? abs lat)%float eqn:Hfar_lat.
  { apply abs_above_90 in Hfar_lat. rewrite Hlat1, Hlat2 in Hfar_lat. done. }
  destruct (180 <? abs lon)%float eqn:Hfar_lon.
  { apply abs_above_180 in Hfar_lon. rewrite Hlon1, Hlon2 in Hfar_lon. done. }
  destruct (lon =? 0)%float eqn:Hzero.
  { apply zero_below_95 in Hzero. congruence. }
  by rewrite orb_false_r.
Qed.

Lemma flagged_survivors_have_zero_latitude_witness :
  clearly_wrong_mask 0 100 = true ∧ clearly_wrong_mask (-6.2) 106.8 = false.
Proof.
  split.
  - exact (flagged_survivors_have_zero_latitude 0 100 eq_refl).
  - exact (flagged_survivors_have_zero_latitude (-6.2) 106.8 eq_refl).
Defined.

(** From two bounds of one coordinate that cross, anything follows. *)
Ltac crossed_bounds :=
  match goal with
  | Hlow : (?a <=? ?x)%float = true, Hhigh : (?x <=? ?b)%float = true |- _ =>
      is_ground a; is_ground b;
      let Hab := fresh in
      pose proof (FloatOrder.leb_trans a x b Hlow Hhigh) as Hab;
      vm_compute in Hab; discriminate Hab
  end.

Ltac within_bounds :=
  first
    [ eassumption
    | match goal with
      | H : (?y <=? ?x)%float = true |- (?a <=? ?x)%float = true =>
          apply (FloatOrder.leb_trans a y x); [reflexivity | exact H]
      | H : (?x <=? ?y)%float = true |- (?x <=? ?b)%float = true =>
          apply (FloatOrder.leb_trans x y b); [exact H | reflexivity]
      end ].

(** X4. Of the six exclusion boxes only Malaysia Barat and Malaysia Timur can
    change what the validator answers: a point of an inclusion box that lies
    in the Singapura, Filipina selatan, Timor Leste or Papua Nugini box lies
    in one of those two as well. *)
Theorem decisive_exclusion_boxes (lat lon : float) :
  any_box (snd <$> Config.INDONESIA_STRICT_BOUNDS) lat lon = true →
  is_in_forbidden_area lat lon =
    in_box (mkBox 1.0 7.0 99.0 105.0) lat lon ||
    in_box (mkBox 4.0 8.0 109.0 120.0) lat lon.
Proof.
  rewrite any_inclusion_box. intros (region & b & Hb & Hlat1 & Hlat2 & Hlon1 & Hlon2).
  destruct (in_box (mkBox 1.0 7.0 99.0 105.0) lat lon) eqn:Hbarat.
  { unfold is_in_forbidden_area, Config.FORBIDDEN_AREAS. cbn [any_box].
    by rewrite Hbarat. }
  destruct (in_box (mkBox 4.0 8.0 109.0 120.0) lat lon) eqn:Htimur.
  { unfold is_in_forbidden_area, Config.FORBIDDEN_AREAS. cbn [any_box].
    rewrite Hbarat, Htimur.
    by destruct (in_box (mkBox 1.2 1.5 103.5 104.2) lat lon). }
  apply not_true_iff_false. unfold is_in_forbidden_area. rewrite any_box_exists.
  intros (area & Harea & Ha1 & Ha2 & Ha3 & Ha4).
  apply not_true_iff_false in Hbarat, Htimur.
  rewrite in_box_inside in Hbarat, Htimur.
  each_entry Harea; cbn [min_lat max_lat min_lon max_lon] in *;
    try (apply Hbarat; repeat split; within_bounds);
    try (apply Htimur; repeat split; within_bounds);
    each_entry Hb; cbn [min_lat max_lat min_lon max_lon] in *;
    try crossed_bounds;
    try (apply Htimur; repeat split; within_bounds).
Qed.

Lemma decisive_exclusion_boxes_witness :
  is_in_forbidden_area 1.35 103.8 = true ∧ is_in_forbidden_area 4.0 117.0 = true ∧
  is_in_forbidden_area (-6.2) 106.8 = false.
Proof.
  split; [|split].
  - exact (decisive_exclusion_boxes 1.35 103.8 eq_refl).
  - exact (decisive_exclusion_boxes 4.0 117.0 eq_refl).
  - exact (decisive_exclusion_boxes (-6.2) 106.8 eq_refl).
Defined.

(** ** The statements of a section *)

Lemma has_columns_find cols df :
  has_columns cols df = true →
  List.find (λ col, negb (bool_decide (col ∈ columns df))) cols = None.
Proof.
  unfold has_columns. induction cols as [|col cols IH]; [done|]. simpl.
  intros [Hcol Hrest]%andb_true_iff. rewrite Hcol. simpl. by apply IH.
Qed.

Lemma lacks_columns_find cols df :
  has_columns cols df = false →
  ∃ col, List.find (λ col, negb (bool_decide (col ∈ columns df))) cols = Some col.
Proof.
  unfold has_columns. induction cols as [|col cols IH]; [done|]. simpl.
  destruct (bool_decide (col ∈ columns df)); simpl; [apply IH | by eexists].
Qed.

Lemma select_columns_returns cols df :
  has_columns cols df = true → returns (select_columns cols df) (project cols df).
Proof.
  intros Hcols. unfold select_columns. rewrite has_columns_find by done.
  apply returns_ret.
Qed.

Lemma select_columns_raises cols df :
  has_columns cols df = false → ∃ e, raises (select_columns cols df) e.
Proof.
  intros Hcols. unfold select_columns.
  destruct (lacks_columns_find cols df Hcols) as [col ->]. by eexists.
Qed.

Lemma try_assignments_step {A} (step : A → St A) rest handler (x x' y : A) :
  returns (step x) x' → returns (try_assignments rest handler x') y →
  returns (try_assignments (step :: rest) handler x) y.
Proof.
  intros Hstep Hrest log. simpl.
  destruct (Hstep log) as [more1 ->]. destruct (Hrest (log ++ more1)) as [more2 ->].
  exists (more1 ++ more2). by rewrite app_assoc.
Qed.

Lemma try_assignments_raised {A} (step : A → St A) rest handler (x : A) e :
  raises (step x) e → returns (handler e) () →
  returns (try_assignments (step :: rest) handler x) x.
Proof.
  intros Hstep Hhandler log. simpl. rewrite Hstep.
  destruct (Hhandler log) as [more Hrun]. exists more.
  unfold mbind, St_bind. by rewrite Hrun.
Qed.

Lemma try_assignments_done {A} handler (x : A) :
  returns (try_assignments [] handler x) x.
Proof. apply returns_ret. Qed.

(** The filter as the last statement of a section's [try]. *)
Lemma try_filter_matched `{Pandas} side green_data data :
  returns (try_assignments [filter_matched side green_data]
             (λ e, say st_error side (ProcessingError e)) data)
    (unmatched green_data data).
Proof.
  intros log. simpl.
  destruct (filter_matched_outcome side green_data data log)
    as [Hrun | [[Hrun Hsame] | (e & Hrun & Hsame)]]; rewrite Hrun.
  - by eexists.
  - exists []. by rewrite app_nil_r, Hsame.
  - rewrite Hsame. by eexists.
Qed.

Ltac assignments :=
  repeat (eapply try_assignments_step; [apply returns_ret|]).

Lemma matched_section_returns `{Pandas} df_matched :
  returns (matched_section df_matched) (green_frame df_matched).
Proof.
  unfold matched_section, green_frame.
  eapply returns_bind; [apply clean_returns_cleaned|]. cbv zeta.
  destruct (empty (cleaned _ _ df_matched)); [apply returns_ret|]. cbn [negb andb].
  destruct (has_columns _ _) eqn:Hcols.
  - eapply try_assignments_step; [by apply select_columns_returns|].
    assignments. apply try_assignments_done.
  - destruct (select_columns_raises _ _ Hcols) as [e Hraises].
    eapply try_assignments_raised; [exact Hraises | apply returns_say].
Qed.

Lemma esb_section_returns `{Pandas} `{PyText} green_data df_esb :
  returns (esb_section green_data df_esb)
    (unmatched green_data (orange_unfiltered df_esb)).
Proof.
  unfold esb_section, orange_unfiltered.
  eapply returns_bind; [apply clean_returns_cleaned|]. cbv zeta.
  destruct (empty (cleaned _ _ df_esb)); [apply returns_ret|]. cbn [negb andb].
  destruct (has_columns _ _) eqn:Hcols.
  - eapply try_assignments_step; [by apply select_columns_returns|].
    assignments. apply try_filter_matched.
  - destruct (select_columns_raises _ _ Hcols) as [e Hraises].
    eapply try_assignments_raised; [exact Hraises | apply returns_say].
Qed.

Lemma scraping_section_returns `{Pandas} green_data df_scraping :
  returns (scraping_section green_data df_scraping)
    (unmatched green_data (blue_unfiltered df_scraping)).
Proof.
  unfold scraping_section, blue_unfiltered.
  eapply returns_bind; [apply clean_returns_cleaned|]. cbv zeta.
  destruct (empty (cleaned _ _ df_scraping)); [apply returns_ret|]. cbn [negb andb].
  destruct (has_columns _ _) eqn:Hcols.
  - eapply try_assignments_step; [by apply select_columns_returns|].
    assignments. apply try_filter_matched.
  - destruct (select_columns_raises _ _ Hcols) as [e Hraises].
    eapply try_assignments_raised; [exact Hraises | apply returns_say].
Qed.

Lemma process_data_returns `{Pandas} `{PyText} df_matched df_esb df_scraping :
  returns (process_data df_matched df_esb df_scraping)
    (green_frame df_matched,
     unmatched (green_frame df_matched) (orange_unfiltered df_esb),
     unmatched (green_frame df_matched) (blue_unfiltered df_scraping)).
Proof.
  unfold process_data.
  eapply returns_bind; [apply matched_section_returns|].
  eapply returns_bind; [apply esb_section_returns|].
  eapply returns_bind; [apply scraping_section_returns|].
  apply returns_ret.
Qed.

(** ** Rows of the normalized frames *)

Lemma rows_project cols df r' :
  r' ∈ rows (project cols df) →
  ∃ r, r ∈ rows df ∧ ∀ col, col ∈ cols → cell_at r' col = cell_at r col.
Proof.
  unfold project. cbn [rows]. intros (r & -> & Hr)%list_elem_of_fmap.
  exists r. split; [done|]. intros col Hcol. unfold cell_at at 1.
  induction cols as [|c cols IH]; [by apply elem_of_nil in Hcol|].
  csimpl. destruct (decide (c = col)) as [->|Hne].
  - by rewrite lookup_insert_eq.
  - rewrite lookup_insert_ne by done. apply IH.
    by apply elem_of_cons in Hcol as [->|Hcol].
Qed.

Lemma rows_rename mapping df r' :
  NoDup (new_label mapping <$> columns df) →
  r' ∈ rows (rename mapping df) →
  ∃ r, r ∈ rows df ∧
    ∀ col, col ∈ columns df → cell_at r' (new_label mapping col) = cell_at r col.
Proof.
  unfold rename. cbn [rows]. intros Hdistinct (r & -> & Hr)%list_elem_of_fmap.
  exists r. split; [done|]. intros col Hcol. unfold cell_at at 1.
  induction (columns df) as [|c cols IH]; [by apply elem_of_nil in Hcol|].
  csimpl. apply NoDup_cons in Hdistinct as [Hfresh Hdistinct].
  apply elem_of_cons in Hcol as [->|Hcol].
  - by rewrite lookup_insert_eq.
  - rewrite lookup_insert_ne; [by apply IH|].
    intros Heq. apply Hfresh. rewrite Heq. apply list_elem_of_fmap. by exists col.
Qed.

Lemma rows_set_column col value df r' :
  r' ∈ rows (set_column col value df) →
  ∃ r, r ∈ rows df ∧ cell_at r' col = value r ∧
    ∀ col', col ≠ col' → cell_at r' col' = cell_at r col'.
Proof.
  unfold set_column. cbn [rows]. intros (r & -> & Hr)%list_elem_of_fmap.
  exists r. split; [done|]. split; [apply cell_at_insert|].
  intros col' Hne. by apply cell_at_insert_ne.
Qed.

Lemma len_project cols df : len (project cols df) = len df.
Proof. unfold len, project. cbn [rows]. by rewrite length_fmap. Qed.

Lemma len_rename mapping df : len (rename mapping df) = len df.
Proof. unfold len, rename. cbn [rows]. by rewrite length_fmap. Qed.

Lemma len_set_column col value df : len (set_column col value df) = len df.
Proof. unfold len, set_column. cbn [rows]. by rewrite length_fmap. Qed.

Ltac distinct_labels := apply (bool_decide_unpack _); vm_compute; exact I.

Ltac listed := apply (bool_decide_unpack _); vm_compute; exact I.

Lemma normalized_matched_rows df_clean r' :
  r' ∈ rows (normalized_matched df_clean) →
  ∃ r, r ∈ rows df_clean ∧
    cell_at r' "lat" = cell_at r "latitude_esb" ∧
    cell_at r' "lon" = cell_at r "longitude_esb" ∧
    cell_at r' "nama_restoran" = cell_at r "brand_pulau" ∧
    cell_at r' "kategori" = Str "Match" ∧
    cell_at r' "color" = Str "green" ∧
    cell_at r' "source" = Str "matched".
Proof.
  unfold normalized_matched.
  intros (r4 & Hr4 & Hsource & Hother4)%rows_set_column.
  apply rows_set_column in Hr4 as (r3 & Hr3 & Hcolor & Hother3).
  apply rows_set_column in Hr3 as (r2 & Hr2 & Hkategori & Hother2).
  apply rows_rename in Hr2 as (r1 & Hr1 & Hrenamed); [|distinct_labels].
  apply rows_project in Hr1 as (r & Hr & Hkept).
  exists r. split; [done|].
  rewrite !Hother4, !Hother3, !Hother2 by done.
  rewrite Hsource, Hcolor, Hkategori.
  rewrite <- (Hkept "latitude_esb"), <- (Hkept "longitude_esb"),
    <- (Hkept "brand_pulau") by listed.
  rewrite <- (Hrenamed "latitude_esb"), <- (Hrenamed "longitude_esb"),
    <- (Hrenamed "brand_pulau") by listed.
  done.
Qed.

Lemma esb_name_cells `{PyText} (r r' : row) :
  cell_at r' "branchName" = cell_at r "branchName" →
  cell_at r' "brandName" = cell_at r "brandName" →
  esb_name r' = esb_name r.
Proof. unfold esb_name. by intros -> ->. Qed.

Lemma normalized_esb_rows `{PyText} df_clean r' :
  r' ∈ rows (normalized_esb df_clean) →
  ∃ r, r ∈ rows df_clean ∧
    cell_at r' "lat" = cell_at r "latitude" ∧
    cell_at r' "lon" = cell_at r "longitude" ∧
    cell_at r' "nama_restoran" = esb_name r ∧
    cell_at r' "kategori" = Str "Hanya ESB" ∧
    cell_at r' "color" = Str "orange" ∧
    cell_at r' "source" = Str "esb".
Proof.
  unfold normalized_esb.
  intros (r4 & Hr4 & Hsource & Hother4)%rows_set_column.
  apply rows_set_column in Hr4 as (r3 & Hr3 & Hcolor & Hother3).
  apply rows_set_column in Hr3 as (r2 & Hr2 & Hkategori & Hother2).
  apply rows_rename in Hr2 as (r1 & Hr1 & Hrenamed); [|distinct_labels].
  apply rows_set_column in Hr1 as (r0 & Hr0 & Hname & Hother0).
  apply rows_project in Hr0 as (r & Hr & Hkept).
  exists r. split; [done|].
  rewrite !Hother4, !Hother3, !Hother2 by done.
  rewrite Hsource, Hcolor, Hkategori.
  rewrite <- (esb_name_cells r r0) by (apply Hkept; listed).
  rewrite <- Hname.
  rewrite <- (Hkept "latitude"), <- (Hkept "longitude") by listed.
  rewrite <- (Hother0 "latitude"), <- (Hother0 "longitude") by done.
  rewrite <- (Hrenamed "latitude"), <- (Hrenamed "longitude"),
    <- (Hrenamed "nama_restoran") by listed.
  done.
Qed.

Lemma normalized_scraping_rows df_clean r' :
  r' ∈ rows (normalized_scraping df_clean) →
  ∃ r, r ∈ rows df_clean ∧
    cell_at r' "lat" = cell_at r "latitude" ∧
    cell_at r' "lon" = cell_at r "longitude" ∧
    cell_at r' "nama_restoran" = cell_at r "title" ∧
    cell_at r' "kategori" = Str "Hanya Scraping" ∧
    cell_at r' "color" = Str "blue" ∧
    cell_at r' "source" = Str "scraping".
Proof.
  unfold normalized_scraping.
  intros (r4 & Hr4 & Hsource & Hother4)%rows_set_column.
  apply rows_set_column in Hr4 as (r3 & Hr3 & Hcolor & Hother3).
  apply rows_set_column in Hr3 as (r2 & Hr2 & Hkategori & Hother2).
  apply rows_rename in Hr2 as (r1 & Hr1 & Hrenamed); [|distinct_labels].
  apply rows_project in Hr1 as (r & Hr & Hkept).
  exists r. split; [done|].
  rewrite !Hother4, !Hother3, !Hother2 by done.
  rewrite Hsource, Hcolor, Hkategori.
  rewrite <- (Hkept "latitude"), <- (Hkept "longitude"), <- (Hkept "title") by listed.
  rewrite <- (Hrenamed "latitude"), <- (Hrenamed "longitude"),
    <- (Hrenamed "title") by listed.
  done.
Qed.

Lemma cleaned_rows_valid `{Pandas} lat_col lon_col df r :
  empty (cleaned lat_col lon_col df) = false →
  r ∈ rows (cleaned lat_col lon_col df) → row_valid lat_col lon_col r = true.
Proof.
  unfold cleaned. destruct (empty df) eqn:Hempty; [congruence|].
  destruct (_ && _); [|done]. intros _ Hr. simpl in Hr.
  by apply list_elem_of_In, List.filter_In in Hr as [_ Hvalid].
Qed.

Lemma len_cleaned `{Pandas} lat_col lon_col df :
  (len (cleaned lat_col lon_col df) <= len df)%Z.
Proof.
  unfold cleaned. destruct (empty df); [lia|].
  destruct (_ && _); unfold len; simpl; [|lia].
  apply inj_le. etrans; [apply List.filter_length_le|]. by rewrite length_fmap.
Qed.

Lemma len_select f df : (len (select f df) <= len df)%Z.
Proof. unfold len, select. simpl. apply inj_le, List.filter_length_le. Qed.

(** ** The three frames of the pipeline *)

Lemma side_frame_select cols kategori color source f df :
  side_frame cols kategori color source df →
  side_frame cols kategori color source (select f df).
Proof.
  intros [Hshape Hrows]. split.
  - destruct Hshape as [-> | Hcols]; [by left | by right].
  - intros r [Hr _]%elem_of_select. by apply Hrows.
Qed.

Lemma green_frame_shape `{Pandas} df_matched :
  side_frame
    ["nama_restoran"; "lon"; "lat"; "alamat_esb"; "alamat_pulau";
     "similarity_score"; "confidence"; "kategori"; "color"; "source"]
    "Match" "green" "matched" (green_frame df_matched).
Proof.
  unfold green_frame. cbv zeta.
  destruct (empty (cleaned _ _ df_matched)) eqn:Hempty; cbn [negb andb].
  { split; [by left | intros r Hr; by apply elem_of_nil in Hr]. }
  destruct (has_columns _ _).
  2: { split; [by left | intros r Hr; by apply elem_of_nil in Hr]. }
  split; [by right|]. intros r' Hr'.
  apply normalized_matched_rows in Hr'
    as (r & Hr & Hlat & Hlon & _ & Hkategori & Hcolor & Hsource).
  repeat split; try done.
  unfold row_valid. rewrite Hlat, Hlon.
  by apply (cleaned_rows_valid "latitude_esb" "longitude_esb" df_matched).
Qed.

Lemma orange_unfiltered_shape `{Pandas} `{PyText} df_esb :
  side_frame
    ["branchName"; "brandName"; "lat"; "lon"; "alamat"; "cityName";
     "provinceName"; "nama_restoran"; "kategori"; "color"; "source"]
    "Hanya ESB" "orange" "esb" (orange_unfiltered df_esb).
Proof.
  unfold orange_unfiltered. cbv zeta.
  destruct (empty (cleaned _ _ df_esb)) eqn:Hempty; cbn [negb andb].
  { split; [by left | intros r Hr; by apply elem_of_nil in Hr]. }
  destruct (has_columns _ _).
  2: { split; [by left | intros r Hr; by apply elem_of_nil in Hr]. }
  split; [by right|]. intros r' Hr'.
  apply normalized_esb_rows in Hr'
    as (r & Hr & Hlat & Hlon & _ & Hkategori & Hcolor & Hsource).
  repeat split; try done.
  unfold row_valid. rewrite Hlat, Hlon.
  by apply (cleaned_rows_valid "latitude" "longitude" df_esb).
Qed.

Lemma blue_unfiltered_shape `{Pandas} df_scraping :
  side_frame
    ["nama_restoran"; "alamat"; "lon"; "lat"; "kategori"; "color"; "source"]
    "Hanya Scraping" "blue" "scraping" (blue_unfiltered df_scraping).
Proof.
  unfold blue_unfiltered. cbv zeta.
  destruct (empty (cleaned _ _ df_scraping)) eqn:Hempty; cbn [negb andb].
  { split; [by left | intros r Hr; by apply elem_of_nil in Hr]. }
  destruct (has_columns _ _).
  2: { split; [by left | intros r Hr; by apply elem_of_nil in Hr]. }
  split; [by right|]. intros r' Hr'.
  apply normalized_scraping_rows in Hr'
    as (r & Hr & Hlat & Hlon & _ & Hkategori & Hcolor & Hsource).
  repeat split; try done.
  unfold row_valid. rewrite Hlat, Hlon.
  by apply (cleaned_rows_valid "latitude" "longitude" df_scraping).
Qed.

(** ** Files and the whole pipeline *)

Lemma check_files_outcome fs files log :
  ∃ more,
    check_files fs files log =
      (Returned (forallb (λ file, path_exists fs file.2) files), log ++ more) ∧
    ∀ m, Stage m ∉ more.
Proof.
  revert log. induction files as [|[file_type file_path] rest IH]; intros log.
  - exists []. rewrite app_nil_r. split; [done|]. intros m Hm. by apply elem_of_nil in Hm.
  - simpl. destruct (path_exists fs file_path).
    + unfold mbind, App_bind, tell.
      destruct (IH (log ++ [FileFound file_type file_path])) as (more & -> & Hnone).
      exists (FileFound file_type file_path :: more). split.
      * by rewrite <- app_assoc.
      * intros m [Hm | Hm]%elem_of_cons; [done | by apply (Hnone m)].
    + exists [FileNotFound file_type file_path]. split; [done|].
      intros m [Hm | Hm]%elem_of_cons; [done | by apply elem_of_nil in Hm].
Qed.

Lemma holds_loaded fs df_matched df_esb df_scraping :
  holds fs df_matched df_esb df_scraping ↔
  loaded fs = Some (df_matched, df_esb, df_scraping).
Proof.
  unfold holds, loaded. split.
  - intros (Hexist & -> & -> & ->).
    replace (forallb _ _) with true; [done|].
    symmetry. apply forallb_forall. intros [file_type file_path] Hfile.
    apply (Hexist file_type file_path). by apply list_elem_of_In.
  - destruct (forallb _ _) eqn:Hall; [|done].
    destruct (read_parquet fs (parquet_file "matched")) as [m|]; [|done].
    destruct (read_parquet fs (parquet_file "esb")) as [e|]; [|done].
    destruct (read_parquet fs (parquet_file "scraping")) as [s|]; [|done].
    simpl. intros [= <- <- <-]. split; [|done].
    intros file_type file_path Hfile.
    rewrite forallb_forall in Hall.
    by apply (Hall (file_type, file_path)), list_elem_of_In.
Qed.

(** The pipeline always returns, with the frames [pipeline_frames] names; it
    writes stage messages only when the three tables were read, and then its
    last message is the summary of the three row counts. *)
Lemma load_outcome `{Pandas} `{PyText} fs log :
  ∃ more,
    load_and_process_data_strict fs log = (Returned (pipeline_frames fs), log ++ more) ∧
    match loaded fs with
    | Some _ =>
        let '(green_data, orange_data, blue_data) := pipeline_frames fs in
        ∃ before, more = before ++
          [Finished (len green_data) (len orange_data) (len blue_data)
             (len green_data + len orange_data + len blue_data)]
    | None => ∀ m, Stage m ∉ more
    end.
Proof.
  unfold load_and_process_data_strict, pipeline_frames, loaded, mbind, App_bind, tell.
  destruct (check_files_outcome fs Config.PARQUET_FILES (log ++ [CheckingFiles]))
    as (checked & -> & Hnone).
  destruct (forallb _ _); cbn [negb].
  2: { exists (CheckingFiles :: checked). rewrite <- app_assoc. split; [done|].
       intros m [Hm | Hm]%elem_of_cons; [done | by apply (Hnone m)]. }
  destruct (read_parquet fs (parquet_file "matched")) as [df_matched|]; simpl.
  2: { exists (CheckingFiles :: checked ++ [LoadingData; LoadError]).
       split; [by rewrite <- !app_assoc|].
       intros m [Hm | Hm]%elem_of_cons; [done|].
       apply elem_of_app in Hm as [Hm | Hm]; [by apply (Hnone m)|].
       by repeat (apply elem_of_cons in Hm as [Hm | Hm]; [done|]); apply elem_of_nil in Hm. }
  destruct (read_parquet fs (parquet_file "esb")) as [df_esb|]; simpl.
  2: { exists (CheckingFiles :: checked ++ [LoadingData; LoadError]).
       split; [by rewrite <- !app_assoc|].
       intros m [Hm | Hm]%elem_of_cons; [done|].
       apply elem_of_app in Hm as [Hm | Hm]; [by apply (Hnone m)|].
       by repeat (apply elem_of_cons in Hm as [Hm | Hm]; [done|]); apply elem_of_nil in Hm. }
  destruct (read_parquet fs (parquet_file "scraping")) as [df_scraping|]; simpl.
  2: { exists (CheckingFiles :: checked ++ [LoadingData; LoadError]).
       split; [by rewrite <- !app_assoc|].
       intros m [Hm | Hm]%elem_of_cons; [done|].
       apply elem_of_app in Hm as [Hm | Hm]; [by apply (Hnone m)|].
       by repeat (apply elem_of_cons in Hm as [Hm | Hm]; [done|]); apply elem_of_nil in Hm. }
  unfold stage.
  destruct (process_data_returns df_matched df_esb df_scraping []) as [messages ->].
  cbn [fst snd].
  exists ((CheckingFiles :: checked ++
            [LoadingData; DataLoaded (len df_matched) (len df_esb) (len df_scraping)] ++
            (Stage <$> messages)) ++
          [Finished (len (green_frame df_matched))
             (len (unmatched (green_frame df_matched) (orange_unfiltered df_esb)))
             (len (unmatched (green_frame df_matched) (blue_unfiltered df_scraping)))
             (len (green_frame df_matched) +
              len (unmatched (green_frame df_matched) (orange_unfiltered df_esb)) +
              len (unmatched (green_frame df_matched) (blue_unfiltered df_scraping)))]).
  split; [|by eexists].
  f_equal. rewrite <- !app_assoc. cbn [app]. by rewrite <- !app_assoc.
Qed.

Lemma side_frame_none cols kategori color source :
  side_frame cols kategori color source pd_DataFrame.
Proof. split; [by left | intros r Hr; by apply elem_of_nil in Hr]. Qed.

Lemma pipeline_frames_shape `{Pandas} `{PyText} fs :
  let '(green_data, orange_data, blue_data) := pipeline_frames fs in
  side_frame
    ["nama_restoran"; "lon"; "lat"; "alamat_esb"; "alamat_pulau";
     "similarity_score"; "confidence"; "kategori"; "color"; "source"]
    "Match" "green" "matched" green_data ∧
  side_frame
    ["branchName"; "brandName"; "lat"; "lon"; "alamat"; "cityName";
     "provinceName"; "nama_restoran"; "kategori"; "color"; "source"]
    "Hanya ESB" "orange" "esb" orange_data ∧
  side_frame
    ["nama_restoran"; "alamat"; "lon"; "lat"; "kategori"; "color"; "source"]
    "Hanya Scraping" "blue" "scraping" blue_data.
Proof.
  unfold pipeline_frames. destruct (loaded fs) as [[[df_matched df_esb] df_scraping]|].
  - split; [apply green_frame_shape|].
    split; apply side_frame_select;
      [apply orange_unfiltered_shape | apply blue_unfiltered_shape].
  - split; [|split]; apply side_frame_none.
Qed.

(** X5. On tables whose cells are missing values, binary64 numbers or text,
    the pipeline returns three frames, and every row of the three frames has
    coordinates that the region validator accepts. A coordinate column of
    another type, such as booleans, is outside the tables modelled here: on
    it the statistics line of the cleaner, which no [try] encloses, can
    raise, and the pipeline then returns nothing. *)
Theorem pipeline_points_accepted `{Pandas} `{PyText} (fs : FileSystem)
    (log : list event) :
  ∃ green_data orange_data blue_data more,
    load_and_process_data_strict fs log =
      (Returned (green_data, orange_data, blue_data), log ++ more) ∧
    ∀ r, r ∈ rows green_data ∨ r ∈ rows orange_data ∨ r ∈ rows blue_data →
      validate_indonesia_strict (number (cell_at r "lat")) (number (cell_at r "lon"))
        = true.
Proof.
  destruct (load_outcome fs log) as (more & Hrun & _).
  pose proof (pipeline_frames_shape fs) as Hshape.
  destruct (pipeline_frames fs) as [[green_data orange_data] blue_data].
  destruct Hshape as ([_ Hgreen] & [_ Horange] & [_ Hblue]).
  exists green_data, orange_data, blue_data, more. split; [done|].
  intros r [Hr | [Hr | Hr]]; [apply Hgreen | apply Horange | apply Hblue]; done.
Qed.

(** X6. Each frame the pipeline returns is [pd.DataFrame()] or has the fixed
    columns of its side, and each of its rows carries the side's category,
    colour and source. *)
Theorem pipeline_frames_tagged `{Pandas} `{PyText} (fs : FileSystem)
    (log : list event) :
  ∃ green_data orange_data blue_data more,
    load_and_process_data_strict fs log =
      (Returned (green_data, orange_data, blue_data), log ++ more) ∧
    (green_data = pd_DataFrame ∨
     columns green_data =
       ["nama_restoran"; "lon"; "lat"; "alamat_esb"; "alamat_pulau";
        "similarity_score"; "confidence"; "kategori"; "color"; "source"]) ∧
    (orange_data = pd_DataFrame ∨
     columns orange_data =
       ["branchName"; "brandName"; "lat"; "lon"; "alamat"; "cityName";
        "provinceName"; "nama_restoran"; "kategori"; "color"; "source"]) ∧
    (blue_data = pd_DataFrame ∨
     columns blue_data =
       ["nama_restoran"; "alamat"; "lon"; "lat"; "kategori"; "color"; "source"]) ∧
    (∀ r, r ∈ rows green_data →
       cell_at r "kategori" = Str "Match" ∧ cell_at r "color" = Str "green" ∧
       cell_at r "source" = Str "matched") ∧
    (∀ r, r ∈ rows orange_data →
       cell_at r "kategori" = Str "Hanya ESB" ∧ cell_at r "color" = Str "orange" ∧
       cell_at r "source" = Str "esb") ∧
    (∀ r, r ∈ rows blue_data →
       cell_at r "kategori" = Str "Hanya Scraping" ∧ cell_at r "color" = Str "blue" ∧
       cell_at r "source" = Str "scraping").
Proof.
  destruct (load_outcome fs log) as (more & Hrun & _).
  pose proof (pipeline_frames_shape fs) as Hshape.
  destruct (pipeline_frames fs) as [[green_data orange_data] blue_data].
  destruct Hshape as ([Hg Hgreen] & [Ho Horange] & [Hb Hblue]).
  exists green_data, orange_data, blue_data, more.
  repeat split; try done; by (apply Hgreen || apply Horange || apply Hblue).
Qed.

Lemma absent_input_not_loaded fs :
  (∃ file_type file_path, (file_type, file_path) ∈ Config.PARQUET_FILES ∧
     path_exists fs file_path = false) ∨
  read_parquet fs (parquet_file "matched") = None ∨
  read_parquet fs (parquet_file "esb") = None ∨
  read_parquet fs (parquet_file "scraping") = None →
  loaded fs = None.
Proof.
  unfold loaded. destruct (forallb _ _) eqn:Hall; [|done].
  intros [(file_type & file_path & Hfile & Hmissing) | Hread].
  - rewrite forallb_forall in Hall.
    apply list_elem_of_In, Hall in Hfile. simpl in Hfile. congruence.
  - destruct Hread as [-> | [-> | ->]]; [done| |].
    + by destruct (read_parquet fs (parquet_file "matched")).
    + destruct (read_parquet fs (parquet_file "matched")); [|done].
      by destruct (read_parquet fs (parquet_file "esb")).
Qed.

(** X7. When one of the three files does not exist, or one of them cannot be
    read, the pipeline returns three [pd.DataFrame()] and runs no stage: no
    table is cleaned, normalized or filtered. *)
Theorem pipeline_without_input `{Pandas} `{PyText} (fs : FileSystem)
    (log : list event) :
  (∃ file_type file_path, (file_type, file_path) ∈ Config.PARQUET_FILES ∧
     path_exists fs file_path = false) ∨
  read_parquet fs (parquet_file "matched") = None ∨
  read_parquet fs (parquet_file "esb") = None ∨
  read_parquet fs (parquet_file "scraping") = None →
  ∃ more,
    load_and_process_data_strict fs log =
      (Returned (pd_DataFrame, pd_DataFrame, pd_DataFrame), log ++ more) ∧
    ∀ m, Stage m ∉ more.
Proof.
  intros Habsent%absent_input_not_loaded.
  destruct (load_outcome fs log) as (more & Hrun & Hmore).
  unfold pipeline_frames in Hrun. rewrite Habsent in Hrun, Hmore. by exists more.
Qed.

Lemma pipeline_without_input_witness :
  let fs := {| path_exists := λ file_path,
                 bool_decide (file_path ≠ "src/data_3_pulau_final.parquet");
               read_parquet := λ _, Some pd_DataFrame |} in
  ∃ more,
    load_and_process_data_strict (H := ascii_text) (H0 := plain_text) fs [] =
      (Returned (pd_DataFrame, pd_DataFrame, pd_DataFrame), [] ++ more) ∧
    ∀ m, Stage m ∉ more.
Proof.
  cbv zeta.
  apply (pipeline_without_input (H := ascii_text) (H0 := plain_text)).
  left. exists "scraping", "src/data_3_pulau_final.parquet".
  split; [do 2 right; left | reflexivity].
Defined.

Lemma unmatched_nothing `{Pandas} df : unmatched pd_DataFrame df = df.
Proof. by apply unmatched_no_names_l. Qed.

(** X8. The pipeline reconciles: the three frames it computes from three tables
    are what the reconciliation step returns on the frames of the three
    sections, each section taken with nothing matched. *)
Theorem process_data_reconciles `{Pandas} `{PyText}
    (df_matched df_esb df_scraping : DataFrame) :
  ∃ green_data orange_all blue_all orange_data blue_data,
    returns (matched_section df_matched) green_data ∧
    returns (esb_section pd_DataFrame df_esb) orange_all ∧
    returns (scraping_section pd_DataFrame df_scraping) blue_all ∧
    returns (process_data df_matched df_esb df_scraping)
      (green_data, orange_data, blue_data) ∧
    ∃ log, run (reconcile green_data orange_all blue_all) =
             (Returned (green_data, orange_data, blue_data), log).
Proof.
  exists (green_frame df_matched), (orange_unfiltered df_esb),
    (blue_unfiltered df_scraping).
  eexists _, _. split; [apply matched_section_returns|].
  split.
  { rewrite <- (unmatched_nothing (orange_unfiltered df_esb)).
    apply esb_section_returns. }
  split.
  { rewrite <- (unmatched_nothing (blue_unfiltered df_scraping)).
    apply scraping_section_returns. }
  split; [apply process_data_returns|].
  destruct (reconcile_outcome (green_frame df_matched) (orange_unfiltered df_esb)
              (blue_unfiltered df_scraping)) as (log & Hrun & _).
  by exists log.
Qed.

Lemma cleaned_columns `{Pandas} lat_col lon_col df :
  empty (cleaned lat_col lon_col df) = false →
  columns (cleaned lat_col lon_col df) = columns df.
Proof.
  unfold cleaned. destruct (empty df) eqn:Hempty; [congruence|].
  by destruct (_ && _).
Qed.

Lemma orange_unfiltered_lacking `{Pandas} `{PyText} df_esb :
  has_columns ["branchName"; "brandName"; "latitude"; "longitude";
               "address"; "cityName"; "provinceName"] df_esb = false →
  orange_unfiltered df_esb = pd_DataFrame.
Proof.
  intros Hlacks. unfold orange_unfiltered. cbv zeta.
  destruct (empty (cleaned _ _ df_esb)) eqn:Hempty; [done|]. cbn [negb andb].
  unfold has_columns in *. by rewrite cleaned_columns, Hlacks.
Qed.

(** X9. A column missing from the ESB table costs the ESB frame only: the ESB
    frame is then [pd.DataFrame()], and the matched and scraping frames are
    the ones the pipeline computes with any other ESB table. *)
Theorem esb_schema_error_contained `{Pandas} `{PyText}
    (df_matched df_esb df_esb' df_scraping : DataFrame) :
  has_columns ["branchName"; "brandName"; "latitude"; "longitude";
               "address"; "cityName"; "provinceName"] df_esb = false →
  ∃ green_data orange_data' blue_data,
    returns (process_data df_matched df_esb df_scraping)
      (green_data, pd_DataFrame, blue_data) ∧
    returns (process_data df_matched df_esb' df_scraping)
      (green_data, orange_data', blue_data).
Proof.
  intros Hlacks. eexists _, _, _. split; [|apply process_data_returns].
  pose proof (process_data_returns df_matched df_esb df_scraping) as Hrun.
  by rewrite (orange_unfiltered_lacking df_esb Hlacks) in Hrun.
Qed.

Lemma esb_schema_error_contained_witness :
  let named (s : string) : row :=
    {[ "title" := Str s; "address" := Null;
       "longitude" := Num 106.8; "latitude" := Num (-6.2) ]} in
  let df_scraping :=
    mkFrame ["title"; "address"; "longitude"; "latitude"] [named "Bakmi GM"] in
  let df_esb := mkFrame ["brandName"; "latitude"; "longitude"]
    [{[ "brandName" := Str "Bakmi GM"; "latitude" := Num (-6.2);
        "longitude" := Num 106.8 ]}] in
  ∃ green_data orange_data' blue_data,
    returns (process_data (H := ascii_text) (H0 := plain_text)
               pd_DataFrame df_esb df_scraping)
      (green_data, pd_DataFrame, blue_data) ∧
    returns (process_data (H := ascii_text) (H0 := plain_text)
               pd_DataFrame pd_DataFrame df_scraping)
      (green_data, orange_data', blue_data).
Proof.
  cbv zeta.
  apply (esb_schema_error_contained (H := ascii_text) (H0 := plain_text)).
  reflexivity.
Defined.

Lemma len_green_frame `{Pandas} df_matched :
  (len (green_frame df_matched) <= len df_matched)%Z.
Proof.
  unfold green_frame. cbv zeta.
  pose proof (len_cleaned "latitude_esb" "longitude_esb" df_matched).
  destruct (_ && _).
  - unfold normalized_matched.
    by rewrite !len_set_column, len_rename, len_project.
  - unfold len in *. simpl. lia.
Qed.

Lemma len_orange_unfiltered `{Pandas} `{PyText} df_esb :
  (len (orange_unfiltered df_esb) <= len df_esb)%Z.
Proof.
  unfold orange_unfiltered. cbv zeta.
  pose proof (len_cleaned "latitude" "longitude" df_esb).
  destruct (_ && _).
  - unfold normalized_esb.
    by rewrite !len_set_column, len_rename, len_set_column, len_project.
  - unfold len in *. simpl. lia.
Qed.

Lemma len_blue_unfiltered `{Pandas} df_scraping :
  (len (blue_unfiltered df_scraping) <= len df_scraping)%Z.
Proof.
  unfold blue_unfiltered. cbv zeta.
  pose proof (len_cleaned "latitude" "longitude" df_scraping).
  destruct (_ && _).
  - unfold normalized_scraping.
    by rewrite !len_set_column, len_rename, len_project.
  - unfold len in *. simpl. lia.
Qed.

(** X10. When the three tables are read, the last thing the pipeline writes is
    the summary of the row counts of the three frames it returns and of their
    sum, and no frame has more rows than the table it comes from. *)
Theorem pipeline_row_counts `{Pandas} `{PyText} (fs : FileSystem)
    (df_matched df_esb df_scraping : DataFrame) (log : list event) :
  holds fs df_matched df_esb df_scraping →
  ∃ green_data orange_data blue_data before,
    load_and_process_data_strict fs log =
      (Returned (green_data, orange_data, blue_data),
       log ++ before ++
         [Finished (len green_data) (len orange_data) (len blue_data)
            (len green_data + len orange_data + len blue_data)]) ∧
    (len green_data <= len df_matched)%Z ∧
    (len orange_data <= len df_esb)%Z ∧
    (len blue_data <= len df_scraping)%Z.
Proof.
  intros Hloaded%holds_loaded.
  destruct (load_outcome fs log) as (more & Hrun & Hmore).
  unfold pipeline_frames in Hrun, Hmore. rewrite Hloaded in Hrun, Hmore.
  destruct Hmore as [before ->].
  eexists _, _, _, before. split; [exact Hrun|].
  split; [apply len_green_frame|].
  split; (etrans; [apply len_select|]);
    [apply len_orange_unfiltered | apply len_blue_unfiltered].
Qed.

Lemma pipeline_row_counts_witness :
  let place (name : string) : row :=
    {[ "title" := Str name; "address" := Null;
       "longitude" := Num 106.8; "latitude" := Num (-6.2) ]} in
  let abroad : row :=
    {[ "title" := Str "Kopi Tiam"; "address" := Null;
       "longitude" := Num 103.8; "latitude" := Num 1.35 ]} in
  let df_scraping :=
    mkFrame ["title"; "address"; "longitude"; "latitude"] [place "Bakmi GM"; abroad] in
  let fs := {| path_exists := λ _, true;
               read_parquet := λ file_path,
                 if bool_decide (file_path = "src/data_3_pulau_final.parquet")
                 then Some df_scraping else Some pd_DataFrame |} in
  ∃ green_data orange_data blue_data before,
    load_and_process_data_strict (H := ascii_text) (H0 := plain_text) fs [] =
      (Returned (green_data, orange_data, blue_data),
       [] ++ before ++
         [Finished (len green_data) (len orange_data) (len blue_data)
            (len green_data + len orange_data + len blue_data)]) ∧
    (len green_data <= len pd_DataFrame)%Z ∧
    (len orange_data <= len pd_DataFrame)%Z ∧
    (len blue_data <= len df_scraping)%Z.
Proof.
  cbv zeta.
  apply (pipeline_row_counts (H := ascii_text) (H0 := plain_text)).
  split; [|by repeat split].
  intros file_type file_path _. reflexivity.
Defined.

(** ** Statistics and the file check of the sidebar *)

Lemma guarded_len cols kategori color source df :
  cols ≠ [] → side_frame cols kategori color source df →
  (if negb (empty df) then len df else 0%Z) = len df.
Proof.
  intros Hcols [[-> | Hshape] _]; [done|].
  unfold empty, len. rewrite Hshape.
  destruct (rows df); [done|]. by destruct cols.
Qed.

Lemma len_zero df : len df = 0%Z ↔ rows df = [].
Proof.
  unfold len. destruct (rows df); [done|]. simpl. split; [lia | done].
Qed.

(** X11. On the frames the pipeline returns, the totals of the statistics are
    the row counts of the three frames and their sum, and the statistics
    fall back to the empty figures exactly when the three frames have no
    row. *)
Theorem statistics_of_pipeline `{Pandas} `{PyText} `{PandasCounts}
    (fs : FileSystem) (log : list event) :
  ∃ green_data orange_data blue_data more,
    load_and_process_data_strict fs log =
      (Returned (green_data, orange_data, blue_data), log ++ more) ∧
    let stats := create_comprehensive_statistics green_data orange_data blue_data in
    total_green stats = len green_data ∧
    total_orange stats = len orange_data ∧
    total_blue stats = len blue_data ∧
    total_all stats = (len green_data + len orange_data + len blue_data)%Z ∧
    (empty_figures stats = true ↔
       rows green_data = [] ∧ rows orange_data = [] ∧ rows blue_data = []).
Proof.
  destruct (load_outcome fs log) as (more & Hrun & _).
  pose proof (pipeline_frames_shape fs) as Hshape.
  destruct (pipeline_frames fs) as [[green_data orange_data] blue_data].
  destruct Hshape as (Hgreen & Horange & Hblue).
  exists green_data, orange_data, blue_data, more. split; [done|].
  apply guarded_len in Hgreen; [|done].
  apply guarded_len in Horange; [|done].
  apply guarded_len in Hblue; [|done].
  cbv zeta. unfold create_comprehensive_statistics.
  rewrite Hgreen, Horange, Hblue, <- !len_zero.
  assert (0 <= len green_data ∧ 0 <= len orange_data ∧ 0 <= len blue_data)%Z
    as (? & ? & ?) by (unfold len; lia).
  destruct (_ =? 0)%Z eqn:Hzero; cbv zeta;
    cbn [total_green total_orange total_blue total_all];
    unfold empty_figures; cbn [fig_pie fig_bar fig_similarity fig_top andb].
  - apply Z.eqb_eq in Hzero. repeat split; lia.
  - apply Z.eqb_neq in Hzero. repeat split; try done; lia.
Qed.

Lemma check_default_files_from_outcome fs files (available : gmap string string) log :
  NoDup files.*1 → (∀ file_type, file_type ∈ files.*1 → available !! file_type = None) →
  ∃ result more,
    check_default_files_from fs files available log = (Returned result, log ++ more) ∧
    (∀ file_type file_path,
       result !! file_type = Some file_path ↔
       available !! file_type = Some file_path ∨
       ((file_type, file_path) ∈ files ∧ path_exists fs file_path = true)) ∧
    size result =
      (size available + length (List.filter (λ file, path_exists fs file.2) files))%nat.
Proof.
  revert available log.
  induction files as [|[t0 p0] rest IH]; intros available log Hkeys Hfresh.
  { exists available, []. rewrite app_nil_r. split; [done|]. split; [|simpl; lia].
    intros file_type file_path. split; [by left|].
    intros [? | [Hin _]]; [done | by apply elem_of_nil in Hin]. }
  apply NoDup_cons in Hkeys as [Hnew Hkeys]. cbn [check_default_files_from].
  assert (Hnone : available !! t0 = None) by (apply Hfresh; left).
  simpl. destruct (path_exists fs p0) eqn:Hexists; unfold mbind, App_bind, tell.
  - destruct (IH (<[t0 := p0]> available) (log ++ [SidebarFileFound t0 p0]) Hkeys)
      as (result & more & -> & Hlookup & Hsize).
    { intros file_type Hin. rewrite lookup_insert_ne; [apply Hfresh; by right|].
      by intros ->. }
    exists result, (SidebarFileFound t0 p0 :: more).
    split; [by rewrite <- app_assoc|]. split.
    + intros file_type file_path. rewrite Hlookup, lookup_insert_Some, elem_of_cons.
      split.
      * intros [[[-> ->] | [_ Hold]] | [Hin Hthere]];
          [right; by split; [left|] | by left | right; by split; [right|]].
      * intros [Hold | [[[= -> ->] | Hin] Hthere]].
        -- left; right. split; [|done]. intros ->. congruence.
        -- left; by left.
        -- right. by split.
    + rewrite Hsize, map_size_insert_None by done. simpl. lia.
  - destruct (IH available (log ++ [SidebarFileNotFound t0 p0]) Hkeys)
      as (result & more & -> & Hlookup & Hsize).
    { intros file_type Hin. apply Hfresh. by right. }
    exists result, (SidebarFileNotFound t0 p0 :: more).
    split; [by rewrite <- app_assoc|]. split; [|by rewrite Hsize].
    intros file_type file_path. rewrite Hlookup, elem_of_cons. split.
    + intros [Hold | [Hin Hthere]]; [by left | right; by split; [right|]].
    + intros [Hold | [[[= -> ->] | Hin] Hthere]];
        [by left | congruence | right; by split].
Qed.

Lemma filter_all_length {A} (f : A → bool) l :
  length (List.filter f l) = length l ↔ forallb f l = true.
Proof.
  induction l as [|x l IH]; [done|]. simpl.
  pose proof (List.filter_length_le f l).
  destruct (f x); simpl; [rewrite <- IH; lia | split; [lia | done]].
Qed.

(** X12. The dict [check_default_files] returns holds exactly the configured
    files that exist, each under its own key. It has three entries, which is
    what [main] asks before it offers to load, exactly when the three files
    exist; the file check of the pipeline then passes as well. *)
Theorem check_default_files_complete (fs : FileSystem) (log : list event) :
  ∃ available_files more,
    check_default_files fs log = (Returned available_files, log ++ more) ∧
    (∀ file_type file_path,
       available_files !! file_type = Some file_path ↔
       (file_type, file_path) ∈ Config.PARQUET_FILES ∧
       path_exists fs file_path = true) ∧
    ((size available_files <? 3)%nat = false ↔
       ∀ file_type file_path, (file_type, file_path) ∈ Config.PARQUET_FILES →
         path_exists fs file_path = true) ∧
    ((size available_files <? 3)%nat = false →
       ∃ more', check_files fs Config.PARQUET_FILES log = (Returned true, log ++ more')).
Proof.
  destruct (check_default_files_from_outcome fs Config.PARQUET_FILES ∅ log)
    as (available_files & more & Hrun & Hlookup & Hsize).
  { apply (bool_decide_unpack _). vm_compute. exact I. }
  { intros file_type _. apply lookup_empty. }
  exists available_files, more. split; [exact Hrun|].
  rewrite map_size_empty in Hsize.
  pose proof (List.filter_length_le (λ file, path_exists fs file.2) Config.PARQUET_FILES)
    as Hle.
  change (length Config.PARQUET_FILES) with 3%nat in Hle.
  assert (Hgate : (size available_files <? 3)%nat = false ↔
            forallb (λ file, path_exists fs file.2) Config.PARQUET_FILES = true).
  { rewrite <- filter_all_length, Nat.ltb_ge.
    change (length Config.PARQUET_FILES) with 3%nat. lia. }
  split; [|split].
  - intros file_type file_path. rewrite Hlookup, lookup_empty.
    split; [by intros [? | ?] | by right].
  - rewrite Hgate, forallb_forall. split.
    + intros Hall file_type file_path Hin.
      by apply (Hall (file_type, file_path)), list_elem_of_In.
    + intros Hall [file_type file_path] Hin.
      by apply (Hall file_type file_path), list_elem_of_In.
  - intros Hall%Hgate.
    destruct (check_files_outcome fs Config.PARQUET_FILES log) as (more' & Hcheck & _).
    rewrite Hall in Hcheck. by exists more'.
Qed.

(** ** The diagnostics of [detect_and_fix_coordinate_issues] *)

(** X13. Called on a table with rows that lacks a coordinate column, the function
    raises [KeyError] for the first absent label, after its opening line:
    it relies on the check its caller makes. *)
Theorem detect_and_fix_requires_columns (df : DataFrame)
    (lat_col lon_col dataset_name : string) (log : list message) :
  empty df = false →
  lat_col ∉ columns df ∨ lon_col ∉ columns df →
  ∃ col,
    (col = lat_col ∨ col = lon_col) ∧ (col ∉ columns df) ∧
    detect_and_fix_coordinate_issues df lat_col lon_col dataset_name log =
      (Raised (KeyError col), log ++ [mkMsg st_write dataset_name DeepAnalysis]).
Proof.
  intros Hempty Habsent. unfold detect_and_fix_coordinate_issues. rewrite Hempty.
  unfold mbind, St_bind, say, describe, column, raise, mret, St_ret.
  destruct (decide (lat_col ∈ columns df)) as [Hlat | Hlat].
  - destruct Habsent as [? | Hlon]; [done|].
    exists lon_col. split; [by right|]. split; [done|].
    by rewrite (bool_decide_true _ Hlat), (bool_decide_false _ Hlon).
  - exists lat_col. split; [by left|]. split; [done|].
    by rewrite (bool_decide_false _ Hlat).
Qed.

Lemma detect_and_fix_requires_columns_witness :
  detect_and_fix_coordinate_issues
    (mkFrame ["title"; "latitude"]
       [{[ "title" := Str "Kopi"; "latitude" := Num (-6.2) ]}])
    "latitude" "longitude" "Scraping Data" [] =
  (Raised (KeyError "longitude"), [mkMsg st_write "Scraping Data" DeepAnalysis]).
Proof.
  destruct (detect_and_fix_requires_columns
    (mkFrame ["title"; "latitude"]
       [{[ "title" := Str "Kopi"; "latitude" := Num (-6.2) ]}])
    "latitude" "longitude" "Scraping Data" [] eq_refl
    ltac:(right; apply (bool_decide_unpack _); vm_compute; exact I))
    as (col & [-> | ->] & Hcol & Hrun).
  - exfalso. apply Hcol. right; left.
  - exact Hrun.
Defined.

Lemma filter_disjoint_length {A} (p q : A → bool) l :
  (∀ x, p x = true → q x = false) →
  (length (List.filter p l) + length (List.filter q l) <= length l)%nat.
Proof.
  intros Hdisjoint. induction l as [|x l IH]; [done|]. simpl.
  destruct (p x) eqn:Hp; [rewrite (Hdisjoint x Hp)|destruct (q x)]; simpl; lia.
Qed.

Ltac early_stop Hrun :=
  unfold mbind, St_bind, say, mret, St_ret in Hrun |- *;
  injection Hrun as <- _; eexists; split; [reflexivity|]; left; by eexists _, _.

(** The messages of the cleaner: one line when it stops early, else the
    line of the record count followed by the messages of
    [detect_and_fix_coordinate_issues] on the table it hands over. *)
Lemma clean_messages `{Pandas} df lat_col lon_col dataset_name log :
  ∃ more,
    clean_and_validate_coordinates_strict df lat_col lon_col dataset_name log =
      (Returned (cleaned lat_col lon_col df), log ++ more) ∧
    ((∃ lv t, more = [mkMsg lv dataset_name t] ∧
        ∀ n, t ≠ InNeighbourCountries n) ∨
     (∃ df_clean,
        cleaned lat_col lon_col df = select (row_valid lat_col lon_col) df_clean ∧
        more = mkMsg st_info dataset_name (Processing (len df)) ::
               detect_messages df_clean lat_col lon_col dataset_name)).
Proof.
  destruct (clean_returns_cleaned df lat_col lon_col dataset_name log) as [more0 Hrun0].
  unfold clean_and_validate_coordinates_strict in *.
  destruct (empty df) eqn:Hempty; [early_stop Hrun0|].
  destruct (negb (bool_decide (lat_col ∈ columns df)) ||
            negb (bool_decide (lon_col ∈ columns df))) eqn:Habsent;
    [early_stop Hrun0|].
  apply orb_false_iff in Habsent as [Hlat Hlon].
  apply negb_false_iff, bool_decide_eq_true in Hlat, Hlon.
  cbv zeta in *.
  set (df1 := dropna [lat_col; lon_col] df) in *.
  set (df2 := assign lon_col to_numeric (assign lat_col to_numeric df1)) in *.
  set (df3 := dropna [lat_col; lon_col] df2) in *.
  assert (Hrows2 : rows df2 = coerce_row lat_col lon_col <$> rows df1).
  { unfold df2, assign. simpl. by rewrite <- list_fmap_compose. }
  assert (Hrows3 : rows df3 =
            List.filter (λ r, forallb (λ col, negb (cell_isna (cell_at r col)))
                                [lat_col; lon_col]) (rows df2))
    by apply rows_dropna.
  assert (Hcols3 : columns df3 = columns df) by done.
  clearbody df1 df2 df3.
  destruct (empty df1); [early_stop Hrun0|].
  destruct (empty df3) eqn:Hempty3; [early_stop Hrun0|].
  assert (Hnumeric : ∀ r, r ∈ rows df3 →
            is_text (cell_at r lat_col) = false ∧ is_text (cell_at r lon_col) = false).
  { intros r Hr. rewrite Hrows3 in Hr.
    apply list_elem_of_In, List.filter_In in Hr as [Hr _].
    rewrite Hrows2 in Hr. apply List.in_map_iff in Hr as (r0 & <- & _).
    rewrite coerce_row_lat, coerce_row_lon.
    by destruct (cell_at r0 lat_col), (cell_at r0 lon_col). }
  erewrite bind_run in Hrun0 by reflexivity.
  erewrite bind_run by reflexivity.
  rewrite detect_and_fix_messages in Hrun0 |- *;
    try congruence; try (intros r Hr; by apply Hnumeric).
  injection Hrun0 as <- _. rewrite <- app_assoc. eexists. split; [reflexivity|].
  right. by exists df3.
Qed.

(** X14. Whenever the cleaner reports [n] coordinates in neighbouring countries,
    [n] is positive and the cleaner also writes its summary line, whose
    removed count is the row count before validation minus the rows it
    returns, and is at least [n]: every reported row is removed. *)
Theorem neighbours_reported_are_removed `{Pandas} (df : DataFrame)
    (lat_col lon_col dataset_name : string) (log : list message) :
  ∃ result more,
    clean_and_validate_coordinates_strict df lat_col lon_col dataset_name log =
      (Returned result, log ++ more) ∧
    ∀ n, mkMsg st_error dataset_name (InNeighbourCountries n) ∈ more →
      ∃ before removed,
        mkMsg st_success dataset_name (Processed before (len result) removed) ∈ more ∧
        (0 < n)%Z ∧ (n <= removed)%Z ∧ removed = (before - len result)%Z.
Proof.
  destruct (clean_messages df lat_col lon_col dataset_name log)
    as (more & Hrun & Hmore).
  exists (cleaned lat_col lon_col df), more. split; [exact Hrun|].
  intros n Hn. destruct Hmore as [(lv & t & -> & Hother) | (df_clean & -> & ->)].
  { apply list_elem_of_singleton in Hn. injection Hn as _ Ht. by destruct (Hother n). }
  apply elem_of_cons in Hn as [Hn | Hn]; [done|].
  unfold detect_messages in *. cbv zeta in *.
  set (abroad := select (λ r, is_in_forbidden_area _ _) df_clean) in *.
  set (valid := select (row_valid lat_col lon_col) df_clean) in *.
  assert (Hremoved : (len abroad <= len df_clean - len valid)%Z).
  { unfold len, abroad, valid, select. cbn [rows].
    pose proof (filter_disjoint_length
      (λ r, is_in_forbidden_area (number (cell_at r lat_col)) (number (cell_at r lon_col)))
      (row_valid lat_col lon_col) (rows df_clean)) as Hle.
    rewrite <- Nat2Z.inj_sub by apply List.filter_length_le.
    apply inj_le. specialize (Hle (λ r, forbidden_rejected _ _)). lia. }
  assert (Hreported : n = len abroad ∧ (0 < len abroad)%Z).
  { repeat (apply elem_of_app in Hn as [Hn | Hn] || apply elem_of_cons in Hn as [Hn | Hn];
            try done).
    - by apply elem_of_nil in Hn.
    - destruct (0 <? len _)%Z; [|by apply elem_of_nil in Hn].
      by apply list_elem_of_singleton in Hn.
    - destruct (0 <? len abroad)%Z eqn:Hpositive; [|by apply elem_of_nil in Hn].
      apply Z.ltb_lt in Hpositive.
      apply elem_of_cons in Hn as [[= ->] | Hn]; [done|].
      by apply list_elem_of_fmap in Hn as (r & ? & _).
    - destruct (0 <? _ - _)%Z; [|by apply elem_of_nil in Hn].
      by apply list_elem_of_singleton in Hn. }
  destruct Hreported as [-> Hpositive].
  exists (len df_clean), (len df_clean - len valid)%Z.
  split; [|done].
  right. rewrite !elem_of_app. do 3 right.
  replace (0 <? len df_clean - len valid)%Z with true by (symmetry; apply Z.ltb_lt; lia).
  by left.
Qed.

(** ** Names of the ESB frame *)

Lemma normalized_esb_name `{PyText} df_clean r' :
  r' ∈ rows (normalized_esb df_clean) → cell_at r' "nama_restoran" = esb_name r'.
Proof.
  unfold normalized_esb.
  intros (r4 & Hr4 & _ & Hother4)%rows_set_column.
  apply rows_set_column in Hr4 as (r3 & Hr3 & _ & Hother3).
  apply rows_set_column in Hr3 as (r2 & Hr2 & _ & Hother2).
  apply rows_rename in Hr2 as (r1 & Hr1 & Hrenamed); [|distinct_labels].
  apply rows_set_column in Hr1 as (r0 & Hr0 & Hname & Hother0).
  rewrite (esb_name_cells r0 r').
  - rewrite Hother4, Hother3, Hother2 by done.
    rewrite <- Hname. apply (Hrenamed "nama_restoran"). listed.
  - rewrite Hother4, Hother3, Hother2 by done.
    rewrite <- (Hother0 "branchName") by done. apply (Hrenamed "branchName"). listed.
  - rewrite Hother4, Hother3, Hother2 by done.
    rewrite <- (Hother0 "brandName") by done. apply (Hrenamed "brandName"). listed.
Qed.

Lemma esb_name_missing `{PyText} r :
  cell_isna (esb_name r) = true → cell_isna (cell_at r "brandName") = true.
Proof. unfold esb_name. by destruct (_ && _). Qed.

(** X15. In the ESB frame the pipeline returns, the name of every row is the one
    the naming rule gives for the brand and branch cells of that same row,
    and a name is missing only where the brand is missing. *)
Theorem esb_names_follow_rule `{Pandas} `{PyText} (fs : FileSystem)
    (log : list event) :
  ∃ green_data orange_data blue_data more,
    load_and_process_data_strict fs log =
      (Returned (green_data, orange_data, blue_data), log ++ more) ∧
    ∀ r, r ∈ rows orange_data →
      cell_at r "nama_restoran" = esb_name r ∧
      (cell_isna (cell_at r "nama_restoran") = true →
       cell_isna (cell_at r "brandName") = true).
Proof.
  destruct (load_outcome fs log) as (more & Hrun & _).
  assert (Hnames : ∀ r, r ∈ rows (pipeline_frames fs).1.2 →
            cell_at r "nama_restoran" = esb_name r).
  { unfold pipeline_frames.
    destruct (loaded fs) as [[[df_matched df_esb] df_scraping]|]; cbn [fst snd].
    2: { intros r Hr. by apply elem_of_nil in Hr. }
    intros r [Hr _]%elem_of_unmatched. unfold orange_unfiltered in Hr. cbv zeta in Hr.
    destruct (_ && _); [by eapply normalized_esb_name | by apply elem_of_nil in Hr]. }
  destruct (pipeline_frames fs) as [[green_data orange_data] blue_data].
  exists green_data, orange_data, blue_data, more. split; [done|].
  intros r Hr. specialize (Hnames r Hr). split; [done|].
  rewrite Hnames. apply esb_name_missing.
Qed.

(** ** Names across the three frames *)

(** X16. In what the pipeline returns, no name of the ESB frame and no name of
    the scraping frame equals, uppercased, the uppercased name of a row of
    the matched frame. *)
Theorem pipeline_names_disjoint `{Pandas} `{PyText} (fs : FileSystem)
    (log : list event) :
  ∃ green_data orange_data blue_data more,
    load_and_process_data_strict fs log =
      (Returned (green_data, orange_data, blue_data), log ++ more) ∧
    normalized_names green_data ## normalized_names orange_data ∧
    normalized_names green_data ## normalized_names blue_data.
Proof.
  destruct (load_outcome fs log) as (more & Hrun & _).
  unfold pipeline_frames in Hrun.
  destruct (loaded fs) as [[[df_matched df_esb] df_scraping]|].
  - eexists _, _, _, more. split; [exact Hrun|].
    split; apply unmatched_disjoint.
  - exists pd_DataFrame, pd_DataFrame, pd_DataFrame, more. split; [exact Hrun|].
    split; intros x Hx; by apply not_elem_of_empty in Hx.
Qed.
